(** * Aurora OSI multi-agent consensus engine

    A shallow embedding of [MultiAgentConsensus] (lib/agents/base-agent.ts,
    the consensus part) and the properties of its evaluation pipeline.

    Numbers.  A JavaScript [number] is an IEEE 754 binary64 value, which is
    what Rocq's primitive [float] is: [0 / 0] is NaN, comparisons with NaN
    are false, and the decimal literals of the source round the same way.
    Array lengths and loop counters ([results.length], [agreements++],
    [matches++]) are integers far below 2^53, hence exact; the embedding
    keeps them in [nat] and converts them with [num] where the source uses
    them in a floating-point expression.

    Maps and objects.  A [Map<string, V>] iterates in insertion order: it
    is an association list updated with [JS.set].  A plain object used as a
    dictionary ([Record<string, V>]) is the list of its own properties in
    the order of [Object.keys], array indices first, and is updated with
    [Obj.assign], which also knows that [o['__proto__'] = v] adds no
    property.

    Promises and timers.  [agent.evaluate] returns a promise; the embedding
    records how it settles and how many milliseconds after the call, 0 for
    a promise that is already settled when it is returned.  The timer that
    [runAgentWithTimeout] arms follows Node's [setTimeout]: a delay outside
    [1, 2^31 - 1] is 1 ms, and a delay is truncated to whole milliseconds.

    Clock.  [new Date().toISOString()] is the parameter [now]. *)

From Stdlib Require Import PrimFloat Uint63 ZArith List String Ascii Bool Arith Lia.
From Stdlib Require Import FloatOps SpecFloat.
Import ListNotations.

Set Warnings "-inexact-float".
Set Implicit Arguments.

Open Scope string_scope.
Open Scope float_scope.

(** ** JavaScript primitives used by the engine *)

Module JS.

(** An integer counter entering floating-point arithmetic. *)
Definition num (n : nat) : float := PrimFloat.of_uint63 (Uint63.of_Z (Z.of_nat n)).

(** [a >= b] and [a > b] on numbers. *)
Definition ge (a b : float) : bool := PrimFloat.leb b a.
Definition gt (a b : float) : bool := PrimFloat.ltb b a.
Definition lt (a b : float) : bool := PrimFloat.ltb a b.

(** Truthiness of a number: [0], [-0] and NaN are falsy. *)
Definition truthy_number (x : float) : bool :=
  negb (PrimFloat.eqb x 0 || PrimFloat.is_nan x).

(** [Math.min] of two numbers. *)
Definition Math_min (a b : float) : float :=
  if PrimFloat.is_nan a || PrimFloat.is_nan b then nan
  else if PrimFloat.ltb b a then b else a.

(** Values of type [any] in the satellite data: the engine only tests them
    for truthiness. *)
Inductive any : Type :=
| undefined
| null
| boolean (b : bool)
| number (x : float)
| text (s : string)
| object.

Definition truthy (v : any) : bool :=
  match v with
  | undefined | null => false
  | boolean b => b
  | number x => truthy_number x
  | text s => negb (String.eqb s "")
  | object => true
  end.

(** Errors that the modelled code can raise. *)
Inductive Error : Type :=
| TypeError (message : string)
| TimeoutError (message : string)
| AgentError.

(** A computation that returns or throws. *)
Inductive Throws (A : Type) : Type :=
| Return (a : A)
| Throw (e : Error).
Arguments Return {A} a.
Arguments Throw {A} e.

Definition bind {A B} (m : Throws A) (k : A -> Throws B) : Throws B :=
  match m with
  | Return a => k a
  | Throw e => Throw e
  end.

(** How a promise settles, and how many milliseconds after the call; 0 is a
    promise already settled when it is returned. *)
Inductive Promise (A : Type) : Type :=
| Fulfilled (after : float) (value : A)
| Rejected (after : float)
| Pending.
Arguments Fulfilled {A} after value.
Arguments Rejected {A} after.
Arguments Pending {A}.

(** [String.prototype.toLowerCase] on ASCII text. *)
Definition lower_ascii (c : ascii) : ascii :=
  let n := nat_of_ascii c in
  if (65 <=? n)%nat && (n <=? 90)%nat then ascii_of_nat (n + 32) else c.

Fixpoint toLowerCase (s : string) : string :=
  match s with
  | EmptyString => EmptyString
  | String c r => String (lower_ascii c) (toLowerCase r)
  end.

(** [String.prototype.includes]. *)
Fixpoint includes (s sub : string) : bool :=
  String.prefix sub s ||
  match s with
  | EmptyString => false
  | String _ r => includes r sub
  end.

(** Insertion-ordered string-keyed collections. *)
Section Collections.
Variable V : Type.

Fixpoint get (k : string) (m : list (string * V)) : option V :=
  match m with
  | [] => None
  | (k', v) :: r => if String.eqb k k' then Some v else get k r
  end.

(** [m.set(k, v)]: an existing key keeps its position. *)
Fixpoint set (k : string) (v : V) (m : list (string * V)) : list (string * V) :=
  match m with
  | [] => [(k, v)]
  | (k', v') :: r =>
      if String.eqb k k' then (k, v) :: r else (k', v') :: set k v r
  end.

Fixpoint delete (k : string) (m : list (string * V)) : list (string * V) :=
  match m with
  | [] => []
  | (k', v') :: r =>
      if String.eqb k k' then r else (k', v') :: delete k r
  end.

Definition keys (m : list (string * V)) : list string := map fst m.
Definition values (m : list (string * V)) : list V := map snd m.

(** [new Map(pairs)]. *)
Definition of_entries (l : list (string * V)) : list (string * V) :=
  fold_left (fun acc kv => set (fst kv) (snd kv) acc) l [].
End Collections.

End JS.

Notation "x <- m ;; k" := (JS.bind m (fun x => k))
  (at level 61, m at next level, right associativity).

(** ** Plain objects used as dictionaries *)

Module Obj.

Definition digitValue (c : ascii) : option N :=
  let n := N_of_ascii c in
  if (48 <=? n)%N && (n <=? 57)%N then Some (n - 48)%N else None.

Fixpoint decimal (s : string) (acc : N) : option N :=
  match s with
  | EmptyString => Some acc
  | String c r =>
      match digitValue c with
      | Some d => decimal r (acc * 10 + d)%N
      | None => None
      end
  end.

(** An array index: a decimal numeral without leading zero, at most
    2^32 - 2.  Such keys are enumerated first, in ascending order. *)
Definition arrayIndex (k : string) : option N :=
  match k with
  | EmptyString => None
  | String c r =>
      if Ascii.eqb c "0" && negb (String.eqb r "") then None
      else match decimal k 0 with
           | Some n => if (n <=? 4294967294)%N then Some n else None
           | None => None
           end
  end.

(** The names that every plain object inherits from [Object.prototype]. *)
Definition prototypeMembers : list string :=
  [ "constructor"; "__defineGetter__"; "__defineSetter__"; "hasOwnProperty";
    "__lookupGetter__"; "__lookupSetter__"; "isPrototypeOf";
    "propertyIsEnumerable"; "toString"; "valueOf"; "__proto__";
    "toLocaleString" ].

Definition inherited (k : string) : bool := existsb (String.eqb k) prototypeMembers.

Section Properties.
Variable V : Type.

(** A new array index goes before the first larger index, and before the
    first key that is not an index. *)
Fixpoint insertIndex (n : N) (k : string) (v : V) (o : list (string * V))
  : list (string * V) :=
  match o with
  | [] => [(k, v)]
  | (k', v') :: r =>
      match arrayIndex k' with
      | Some n' => if (n <? n')%N then (k, v) :: o else (k', v') :: insertIndex n k v r
      | None => (k, v) :: o
      end
  end.

(** [o[k] = v].  Assigning to ['__proto__'] runs the inherited setter and
    leaves the own properties as they are; an existing property keeps its
    place; a new one goes among the indices or to the end. *)
Definition assign (k : string) (v : V) (o : list (string * V)) : list (string * V) :=
  if String.eqb k "__proto__" then o
  else match JS.get k o with
       | Some _ => JS.set k v o
       | None =>
           match arrayIndex k with
           | Some n => insertIndex n k v o
           | None => (o ++ [(k, v)])%list
           end
       end.

(** A run of assignments. *)
Definition assignAll (l o : list (string * V)) : list (string * V) :=
  fold_left (fun acc kv => assign (fst kv) (snd kv) acc) l o.
End Properties.

End Obj.

(** ** Numbers, continued, and timers *)

Definition numberOfZ (z : Z) : float :=
  if (z <? 0)%Z then - PrimFloat.of_uint63 (Uint63.of_Z (- z))
  else PrimFloat.of_uint63 (Uint63.of_Z z).

Definition Math_floor (x : float) : float :=
  match Prim2SF x with
  | S754_finite sign m e =>
      if (0 <=? e)%Z then x
      else
        let q := (Z.pos m / 2 ^ (- e))%Z in
        if (Z.pos m mod 2 ^ (- e) =? 0)%Z then x
        else if sign then numberOfZ (- q - 1) else numberOfZ q
  | _ => x
  end.

Definition TIMEOUT_MAX : float := 2147483647.

(** The delay after which a timer set with [setTimeout(f, after)] fires in
    Node: [after] when it lies in [1, TIMEOUT_MAX], truncated to whole
    milliseconds, and 1 ms otherwise (NaN, infinite, zero, negative or too
    large). *)
Definition timerDelay (after : float) : float :=
  if PrimFloat.leb 1 after && PrimFloat.leb after TIMEOUT_MAX
  then Math_floor after else 1.

(** ** Data model (interfaces of base-agent.ts) *)

(** The fields of [AgentResult.data] that the veto conditions read. *)
Record AgentData : Type := {
  short_wavelength_anomaly : JS.any;
  alteration_detected : JS.any;
  coherence_score : option float
}.

Record PhysicsValidation : Type := {
  passesPhysics : bool;
  violations : list string;
  residualScore : float
}.

Record Metadata : Type := {
  processingTime : float;
  method : string;
  timestamp : string
}.

Module AgentResult.
Record t : Type := mk {
  agentName : string;
  detection : bool;
  confidence : float;
  uncertainty : float;
  data : option AgentData;
  metadata : Metadata;
  vetoPower : option bool;
  physicsValidation : option PhysicsValidation
}.
End AgentResult.

Record Coordinates : Type := { latitude : float; longitude : float }.

Record AnomalyCandidate : Type := {
  coordinates : Coordinates;
  targetResource : string;
  geologicalContext : string;
  depth : option float;
  radius : option float;
  timeRange : string * string
}.

Record Optical : Type := { sentinel2 : JS.any; landsat8 : JS.any; landsat9 : JS.any }.
Record Sar : Type := { sentinel1 : JS.any; alos : JS.any }.
Record Thermal : Type := { landsatThermal : JS.any; modisLST : JS.any }.
Record Gravity : Type := { grace : JS.any; goce : JS.any }.
Record Hyperspectral : Type := { prisma : JS.any; enmap : JS.any }.
Record Elevation : Type := { srtm : JS.any; aster : JS.any }.

Record SatelliteData : Type := {
  optical : option Optical;
  sar : option Sar;
  thermal : option Thermal;
  gravity : option Gravity;
  hyperspectral : option Hyperspectral;
  elevation : option Elevation
}.

Record QualityReport : Type := {
  overallQualityScore : float;
  issues : list string;
  recommendations : list string;
  pass : bool
}.

Record VetoStatus : Type := {
  vetoed : bool;
  vetoingAgent : option string;
  vetoReason : option string
}.

(** A stored false-positive pattern.  Its [agentPattern] property is
    untyped in the source; the three shapes below are the ones that
    [compareAgentPatterns] tells apart. *)
Inductive AgentPattern : Type :=
| PatternUndefined
| PatternArray (entries : list (string * bool))
| PatternNested (entries : list (string * bool)).

Record FPPattern : Type := {
  name : string;
  resource : string;
  geology : string;
  agentPattern : AgentPattern
}.

Record MatchDetails : Type := {
  patternId : string;
  matchScore : float;
  pattern : FPPattern;
  explanation : string
}.

Record FalsePositiveCheck : Type := {
  isKnownFP : bool;
  matchDetails : option MatchDetails
}.

Module ConsensusResult.
Record t : Type := mk {
  detection : bool;
  confidence : float;
  consensus : float;
  agentAgreement : float;
  vetoStatus : option VetoStatus;
  agentResults : option (list (string * AgentResult.t));
  falsePositiveCheck : option FalsePositiveCheck;
  qualityReport : option QualityReport;
  timestamp : string
}.
End ConsensusResult.

Record AgentMetadata : Type := {
  md_name : string;
  md_type : string;
  md_priority : float;
  md_vetoPower : bool
}.

Module BaseAgent.
Record t : Type := mk {
  name : string;
  type : string;
  priority : float;
  vetoPower : bool;
  evaluate : AnomalyCandidate -> SatelliteData -> JS.Promise AgentResult.t
}.

Definition getMetadata (this : t) : AgentMetadata :=
  {| md_name := name this; md_type := type this;
     md_priority := priority this; md_vetoPower := vetoPower this |}.
End BaseAgent.

Record ConsensusConfig : Type := {
  consensusThreshold : float;
  vetoEnabled : bool;
  confidenceThreshold : float;
  maxProcessingTime : float;
  parallelExecution : bool
}.

(** A property of a [Partial<...>] object: absent, or supplied, with a value
    or with [undefined]. *)
Inductive Supplied (A : Type) : Type :=
| absent
| supplied (value : option A).
Arguments absent {A}.
Arguments supplied {A} value.

(** [Partial<ConsensusConfig>]. *)
Record PartialConfig : Type := {
  p_consensusThreshold : Supplied float;
  p_vetoEnabled : Supplied bool;
  p_confidenceThreshold : Supplied float;
  p_maxProcessingTime : Supplied float;
  p_parallelExecution : Supplied bool
}.

Record VetoCondition : Type := {
  primaryCondition : string;
  secondaryCondition : option string;
  vc_vetoReason : string;
  vc_vetoingAgent : string
}.

(** The private state of a [MultiAgentConsensus] instance. *)
Record MultiAgentConsensus : Type := {
  agents : list (string * BaseAgent.t);
  config : ConsensusConfig;
  consensusHistory : list ConsensusResult.t;
  falsePositiveDatabase : list (string * FPPattern)
}.

(** ** The engine *)

Section Engine.

(** The reading of the clock used for every [timestamp]. *)
Variable now : string.

(** *** Construction and the agent registry *)

Definition defaultConfig : ConsensusConfig :=
  {| consensusThreshold := 0.85;
     vetoEnabled := true;
     confidenceThreshold := 0.7;
     maxProcessingTime := 300000;
     parallelExecution := true |}.

(** What a setting holds after the spread: the default when the property
    is absent, else what was supplied.  The engine only compares its number
    settings with [>=] and hands them to [setTimeout], and only tests its
    boolean settings; there [undefined] is NaN, respectively false, and this
    is how a setting supplied as [undefined] is kept. *)
Definition numberSetting (p : Supplied float) (d : float) : float :=
  match p with
  | absent => d
  | supplied (Some x) => x
  | supplied None => nan
  end.

Definition flagSetting (p : Supplied bool) (d : bool) : bool :=
  match p with
  | absent => d
  | supplied (Some b) => b
  | supplied None => false
  end.

(** [{ ...defaults, ...config }]. *)
Definition spread (d : ConsensusConfig) (c : PartialConfig) : ConsensusConfig :=
  {| consensusThreshold := numberSetting (p_consensusThreshold c) (consensusThreshold d);
     vetoEnabled := flagSetting (p_vetoEnabled c) (vetoEnabled d);
     confidenceThreshold :=
       numberSetting (p_confidenceThreshold c) (confidenceThreshold d);
     maxProcessingTime := numberSetting (p_maxProcessingTime c) (maxProcessingTime d);
     parallelExecution := flagSetting (p_parallelExecution c) (parallelExecution d) |}.

(** [new MultiAgentConsensus(config)]; a constructor may throw, this one
    has no statement that does. *)
Definition constructor (c : PartialConfig) : JS.Throws MultiAgentConsensus :=
  JS.Return {| agents := [];
               config := spread defaultConfig c;
               consensusHistory := [];
               falsePositiveDatabase := [] |}.

Definition registerAgent (this : MultiAgentConsensus) (agent : BaseAgent.t)
  : MultiAgentConsensus :=
  {| agents := JS.set (md_name (BaseAgent.getMetadata agent)) agent (agents this);
     config := config this;
     consensusHistory := consensusHistory this;
     falsePositiveDatabase := falsePositiveDatabase this |}.

Definition removeAgent (this : MultiAgentConsensus) (agentName : string)
  : MultiAgentConsensus :=
  {| agents := JS.delete agentName (agents this);
     config := config this;
     consensusHistory := consensusHistory this;
     falsePositiveDatabase := falsePositiveDatabase this |}.

Definition getAgents (this : MultiAgentConsensus) : list BaseAgent.t :=
  JS.values (agents this).

(** *** Phase 1: data quality *)

(** [o?.f] tested for truthiness. *)
Definition has {A} (o : option A) (f : A -> JS.any) : bool :=
  match o with Some x => JS.truthy (f x) | None => false end.

Definition present {A} (o : option A) : bool :=
  match o with Some _ => true | None => false end.

Definition assessTemporalCoverage (sd : SatelliteData) : float :=
  let score := 0.5 in
  let score := if has (optical sd) sentinel2 then score + 0.2 else score in
  let score := if has (sar sd) sentinel1 then score + 0.2 else score in
  let score := if has (thermal sd) landsatThermal then score + 0.1 else score in
  JS.Math_min 1.0 score.

Definition assessCloudCover (sd : SatelliteData) : float :=
  if present (optical sd) then 0.85 else 1.0.

Definition assessResolutionCompatibility (sd : SatelliteData) : float :=
  let has10m := has (optical sd) sentinel2 || has (sar sd) sentinel1 in
  let has30m := has (thermal sd) landsatThermal || has (elevation sd) srtm in
  if has10m && has30m then 0.9 else 0.6.

Definition assessRadiometricConsistency (sd : SatelliteData) : float := 0.9.

(** [issues.push(..); recommendations.push(..)] under a guard. *)
Definition flag (cond : bool) (issue recommendation : string)
           (acc : list string * list string) : list string * list string :=
  if cond then ((fst acc ++ [issue])%list, (snd acc ++ [recommendation])%list) else acc.

Definition performDataQualityCheck (sd : SatelliteData) : QualityReport :=
  let notes := ([], []) in
  let overallScore := 0.0 in
  let temporalScore := assessTemporalCoverage sd in
  let notes := flag (JS.lt temporalScore 0.7)
                    "Insufficient temporal coverage"
                    "Extend date range or use seasonal composite" notes in
  let overallScore := overallScore + temporalScore * 0.2 in
  let cloudScore := assessCloudCover sd in
  let notes := flag (JS.lt cloudScore 0.8)
                    "High cloud contamination in optical data"
                    "Apply cloud masking or rely on SAR data" notes in
  let overallScore := overallScore + cloudScore * 0.3 in
  let resolutionScore := assessResolutionCompatibility sd in
  let notes := flag (JS.lt resolutionScore 0.6)
                    "Incompatible resolutions across sensors"
                    "Resample to common resolution grid" notes in
  let overallScore := overallScore + resolutionScore * 0.25 in
  let radiometricScore := assessRadiometricConsistency sd in
  let notes := flag (JS.lt radiometricScore 0.9)
                    "Radiometric inconsistencies detected"
                    "Apply cross-sensor calibration" notes in
  let overallScore := overallScore + radiometricScore * 0.25 in
  let pass := JS.ge overallScore 0.75 in
  {| overallQualityScore := overallScore;
     issues := fst notes;
     recommendations := snd notes;
     pass := pass |}.

(** *** Phase 2: running the agents *)

(** The result substituted for an agent that failed. *)
Definition failedResult (name : string) : AgentResult.t :=
  {| AgentResult.agentName := name;
     AgentResult.detection := false;
     AgentResult.confidence := 0.0;
     AgentResult.uncertainty := 1.0;
     AgentResult.data := None;
     AgentResult.metadata :=
       {| processingTime := 0; method := "failed"; timestamp := now |};
     AgentResult.vetoPower := None;
     AgentResult.physicsValidation := None |}.

(** [runAgentWithTimeout] arms the timer, then calls [agent.evaluate]; the
    first of the two to settle decides.  A promise that settles [t] ms
    after the call wins exactly when [t] is below the timer's delay, so a
    promise that is already settled always wins.  The second component
    records the call of [evaluate].  Each promise settles as its agent
    says: an agent that blocks the event loop, and so delays the timers of
    the agents started before it, is not modelled. *)
Definition runAgentWithTimeout (this : MultiAgentConsensus) (agent : BaseAgent.t)
           (candidate : AnomalyCandidate) (sd : SatelliteData)
  : JS.Throws AgentResult.t * list string :=
  let delay := timerDelay (maxProcessingTime (config this)) in
  let timedOut :=
    JS.Throw (JS.TimeoutError
                ("Agent " ++ md_name (BaseAgent.getMetadata agent) ++ " timed out")) in
  (match BaseAgent.evaluate agent candidate sd with
   | JS.Fulfilled t result => if JS.lt t delay then JS.Return result else timedOut
   | JS.Rejected t => if JS.lt t delay then JS.Throw JS.AgentError else timedOut
   | JS.Pending => timedOut
   end,
   [md_name (BaseAgent.getMetadata agent)]).

(** One task of the fan-out: [try { await runAgentWithTimeout } catch],
    with the calls of [evaluate] it made. *)
Definition runTask (this : MultiAgentConsensus) (candidate : AnomalyCandidate)
           (sd : SatelliteData) (entry : string * BaseAgent.t)
  : (string * AgentResult.t) * list string :=
  let '(name, agent) := entry in
  let '(outcome, called) := runAgentWithTimeout this agent candidate sd in
  (match outcome with
   | JS.Return result => (name, result)
   | JS.Throw _ => (name, failedResult name)
   end,
   called).

(** Returns the result object and the agents whose [evaluate] was called,
    in call order. *)
Definition runAgentEvaluations (this : MultiAgentConsensus)
           (candidate : AnomalyCandidate) (sd : SatelliteData)
  : list (string * AgentResult.t) * list string :=
  if parallelExecution (config this) then
    let results := map (runTask this candidate sd) (agents this) in
    (fold_left (fun agentResults task =>
                  Obj.assign (fst (fst task)) (snd (fst task)) agentResults)
               results [],
     flat_map snd results)
  else
    fold_left (fun st entry =>
                 let task := runTask this candidate sd entry in
                 (Obj.assign (fst (fst task)) (snd (fst task)) (fst st),
                  (snd st ++ snd task)%list))
              (agents this) ([], []).

(** *** Phase 3: consensus metrics *)

Record ConsensusMetrics : Type := {
  rawConsensus : float;
  weightedConsensus : float;
  agreementRatio : float;
  detectionCount : nat;
  totalCount : nat;
  agentWeights : list (string * float)
}.

(** The two nested loops over [i < j], threading the counter. *)
Fixpoint pairwiseLoop (results : list AgentResult.t) (agreements : nat) : nat :=
  match results with
  | [] => agreements
  | ri :: rest =>
      pairwiseLoop rest
        (fold_left (fun agreements rj =>
                      if Bool.eqb (AgentResult.detection ri) (AgentResult.detection rj)
                      then S agreements else agreements)
                   rest agreements)
  end.

Definition calculatePairwiseAgreements (results : list AgentResult.t) : nat :=
  pairwiseLoop results 0.

(** The state of the weighting loop: [weightedSum], [totalWeight],
    [agentWeights]. *)
Definition weighStep (this : MultiAgentConsensus)
           (st : float * float * list (string * float))
           (entry : string * AgentResult.t) : float * float * list (string * float) :=
  let '(weightedSum, totalWeight, agentWeights) := st in
  let '(agentName, result) := entry in
  let weight :=
    match JS.get agentName (agents this) with
    | Some agent => md_priority (BaseAgent.getMetadata agent)
    | None => 1
    end in
  let agentWeights := Obj.assign agentName weight agentWeights in
  let weightedSum :=
    weightedSum + (if AgentResult.detection result
                   then AgentResult.confidence result * weight else 0) in
  let totalWeight := totalWeight + weight in
  (weightedSum, totalWeight, agentWeights).

Definition calculateConsensusMetrics (this : MultiAgentConsensus)
           (agentResults : list (string * AgentResult.t)) : ConsensusMetrics :=
  let results := JS.values agentResults in
  let detectionCount := List.length (filter AgentResult.detection results) in
  let totalCount := List.length results in
  let rawConsensus := JS.num detectionCount / JS.num totalCount in
  let '(weightedSum, totalWeight, agentWeights) :=
    fold_left (weighStep this) agentResults (0, 0, []) in
  let weightedConsensus :=
    if JS.gt totalWeight 0 then weightedSum / totalWeight else 0 in
  let agreements := calculatePairwiseAgreements results in
  let agreementRatio :=
    JS.num agreements / (JS.num totalCount * (JS.num totalCount - 1) / 2) in
  {| rawConsensus := rawConsensus;
     weightedConsensus := weightedConsensus;
     agreementRatio := agreementRatio;
     detectionCount := detectionCount;
     totalCount := totalCount;
     agentWeights := agentWeights |}.

(** *** Phase 4: veto logic *)

Definition nameIncludes (result : AgentResult.t) (word : string) : bool :=
  JS.includes (JS.toLowerCase (AgentResult.agentName result)) word.

(** [result.data?.f] tested for truthiness. *)
Definition dataHas (result : AgentResult.t) (f : AgentData -> JS.any) : bool :=
  has (AgentResult.data result) f.

Definition conditionChecks : list (string * (list AgentResult.t -> bool)) :=
  [ ("seepage_detected",
     fun r => existsb (fun result =>
       nameIncludes result "seepage" && AgentResult.detection result) r);
    ("no_trap_detected",
     fun r => forallb (fun result =>
       negb (nameIncludes result "trap") || negb (AgentResult.detection result)) r);
    ("short_wavelength_high",
     fun r => existsb (fun result =>
       nameIncludes result "grav" && dataHas result short_wavelength_anomaly) r);
    ("no_spectral_alteration",
     fun r => forallb (fun result =>
       negb (nameIncludes result "spectral") || negb (dataHas result alteration_detected)) r);
    ("temporal_coherence_below_threshold",
     fun r => existsb (fun result =>
       nameIncludes result "temporal" &&
       match AgentResult.data result with
       | Some d => match coherence_score d with
                   | Some x => JS.lt x 0.7
                   | None => false
                   end
       | None => false
       end) r);
    ("physics_violation",
     fun r => existsb (fun result =>
       match AgentResult.physicsValidation result with
       | Some pv => negb (passesPhysics pv)
       | None => false
       end) r);
    ("physics_residual_high",
     fun r => existsb (fun result =>
       match AgentResult.physicsValidation result with
       | Some pv => JS.gt (residualScore pv) 1.0
       | None => false
       end) r) ].

(** [conditionChecks[name]?.(results)], undefined counting as false. *)
Definition runCheck (name : string) (results : list AgentResult.t) : bool :=
  match JS.get name conditionChecks with
  | Some check => check results
  | None => false
  end.

Definition checkVetoCondition (agentResults : list (string * AgentResult.t))
           (condition : VetoCondition) : bool :=
  let results := JS.values agentResults in
  if negb (runCheck (primaryCondition condition) results) then false
  else
    match secondaryCondition condition with
    | Some secondary =>
        if negb (String.eqb secondary "") && negb (runCheck secondary results)
        then false else true
    | None => true
    end.

Definition vetoConditions : list VetoCondition :=
  [ {| primaryCondition := "seepage_detected";
       secondaryCondition := Some "no_trap_detected";
       vc_vetoReason := "Surface seepage without subsurface trap violates causal consistency";
       vc_vetoingAgent := "StructuralContextAgent" |};
    {| primaryCondition := "short_wavelength_high";
       secondaryCondition := Some "no_spectral_alteration";
       vc_vetoReason := "High-frequency gravity anomaly without mineral alteration";
       vc_vetoingAgent := "SpectralEvolutionAgent" |};
    {| primaryCondition := "physics_violation";
       secondaryCondition := None;
       vc_vetoReason := "Anomaly violates physics constraints for this geological province";
       vc_vetoingAgent := "PhysicsValidationAgent" |};
    {| primaryCondition := "temporal_coherence_below_threshold";
       secondaryCondition := None;
       vc_vetoReason := "Signal lacks multi-year persistence required for valid detection";
       vc_vetoingAgent := "TemporalCoherenceAgent" |};
    {| primaryCondition := "physics_residual_high";
       secondaryCondition := None;
       vc_vetoReason := "Model violates physical laws at this location";
       vc_vetoingAgent := "QuantumInversionAgent" |} ].

Definition notVetoed : VetoStatus :=
  {| vetoed := false; vetoingAgent := None; vetoReason := None |}.

Fixpoint firstVeto (agentResults : list (string * AgentResult.t))
         (conditions : list VetoCondition) : VetoStatus :=
  match conditions with
  | [] => notVetoed
  | condition :: rest =>
      if checkVetoCondition agentResults condition
      then {| vetoed := true;
              vetoingAgent := Some (vc_vetoingAgent condition);
              vetoReason := Some (vc_vetoReason condition) |}
      else firstVeto agentResults rest
  end.

Definition applyVetoLogic (this : MultiAgentConsensus)
           (agentResults : list (string * AgentResult.t))
           (consensusMetrics : ConsensusMetrics) : VetoStatus :=
  if negb (vetoEnabled (config this)) then notVetoed
  else firstVeto agentResults vetoConditions.

(** *** Weighted confidence *)

(** [agentWeights?.[agentName] || 1]. *)
Definition weightOf (agentWeights : option (list (string * float)))
           (agentName : string) : float :=
  match agentWeights with
  | Some weights =>
      match JS.get agentName weights with
      | Some w => if JS.truthy_number w then w else 1
      | None => 1
      end
  | None => 1
  end.

Definition confidenceStep (agentWeights : option (list (string * float)))
           (st : float * float) (entry : string * AgentResult.t) : float * float :=
  let '(weightedSum, totalWeight) := st in
  let '(agentName, result) := entry in
  let weight := weightOf agentWeights agentName in
  let confidence :=
    if AgentResult.detection result then AgentResult.confidence result else 0 in
  let uncertainty := AgentResult.uncertainty result in
  let adjustedConfidence := confidence * (1 - uncertainty) in
  (weightedSum + adjustedConfidence * weight, totalWeight + weight).

Definition calculateWeightedConfidence
           (agentResults : list (string * AgentResult.t))
           (agentWeights : option (list (string * float))) : float :=
  let '(weightedSum, totalWeight) :=
    fold_left (confidenceStep agentWeights) agentResults (0, 0) in
  if JS.gt totalWeight 0 then weightedSum / totalWeight else 0.

(** *** Phase 5: the false-positive database *)

Record AgentDetection : Type := {
  agent : string;
  ad_detection : bool;
  ad_confidence : float
}.

Record AnomalyFeatures : Type := {
  location : Coordinates;
  f_resource : string;
  f_geology : string;
  agentDetections : list AgentDetection;
  averageConfidence : float
}.

Definition extractAnomalyFeatures (candidate : AnomalyCandidate)
           (agentResults : list (string * AgentResult.t)) : AnomalyFeatures :=
  {| location := coordinates candidate;
     f_resource := targetResource candidate;
     f_geology := geologicalContext candidate;
     agentDetections :=
       map (fun nr => {| agent := fst nr;
                         ad_detection := AgentResult.detection (snd nr);
                         ad_confidence := AgentResult.confidence (snd nr) |})
           agentResults;
     averageConfidence := calculateWeightedConfidence agentResults None |}.

(** [compareAgentPatterns(detections, pattern)] reads
    [pattern.agentPattern.map]; its caller already passes
    [pattern.agentPattern], so the argument here is that property. *)
Definition compareAgentPatterns (detections : list AgentDetection)
           (pattern : AgentPattern) : JS.Throws float :=
  let detectionMap :=
    JS.of_entries (map (fun d => (agent d, ad_detection d)) detections) in
  patternMap <-
    match pattern with
    | PatternUndefined =>
        JS.Throw (JS.TypeError
          "Cannot read properties of undefined (reading 'agentPattern')")
    | PatternArray _ =>
        JS.Throw (JS.TypeError
          "Cannot read properties of undefined (reading 'map')")
    | PatternNested inner => JS.Return (JS.of_entries inner)
    end ;;
  let matches :=
    List.length
      (filter (fun ad =>
                 match JS.get (fst ad) patternMap with
                 | Some expected => Bool.eqb expected (snd ad)
                 | None => false
                 end)
              detectionMap) in
  JS.Return (JS.num matches / JS.num (List.length detections)).

Definition calculatePatternMatch (features : AnomalyFeatures) (pattern : FPPattern)
  : JS.Throws float :=
  let matchScore := 0 in
  let matchScore :=
    if String.eqb (f_resource features) (resource pattern)
    then matchScore + 0.3 else matchScore in
  let matchScore :=
    if String.eqb (f_geology features) (geology pattern)
    then matchScore + 0.3 else matchScore in
  agentPatternMatch <-
    compareAgentPatterns (agentDetections features) (agentPattern pattern) ;;
  JS.Return (matchScore + agentPatternMatch * 0.4).

Definition generateFPExplanation (pattern : FPPattern) (features : AnomalyFeatures)
  : string :=
  "Matches known false positive pattern: " ++ name pattern ++ ". " ++
  "Common in " ++ f_geology features ++ " geological contexts with " ++
  f_resource features ++ " targets.".

Definition notKnownFP : FalsePositiveCheck :=
  {| isKnownFP := false; matchDetails := None |}.

Fixpoint scanPatterns (features : AnomalyFeatures)
         (database : list (string * FPPattern)) : JS.Throws FalsePositiveCheck :=
  match database with
  | [] => JS.Return notKnownFP
  | (patternId, pattern) :: rest =>
      matchScore <- calculatePatternMatch features pattern ;;
      if JS.gt matchScore 0.7
      then JS.Return
             {| isKnownFP := true;
                matchDetails :=
                  Some {| patternId := patternId;
                          matchScore := matchScore;
                          pattern := pattern;
                          explanation := generateFPExplanation pattern features |} |}
      else scanPatterns features rest
  end.

Definition checkFalsePositiveDatabase (this : MultiAgentConsensus)
           (candidate : AnomalyCandidate)
           (agentResults : list (string * AgentResult.t))
  : JS.Throws FalsePositiveCheck :=
  let features := extractAnomalyFeatures candidate agentResults in
  scanPatterns features (falsePositiveDatabase this).

(** *** The pipeline *)

Definition pushHistory (this : MultiAgentConsensus) (result : ConsensusResult.t)
  : MultiAgentConsensus :=
  {| agents := agents this;
     config := config this;
     consensusHistory := (consensusHistory this ++ [result])%list;
     falsePositiveDatabase := falsePositiveDatabase this |}.

(** The object returned by the [catch] clause. *)
Definition caughtResult : ConsensusResult.t :=
  {| ConsensusResult.detection := false;
     ConsensusResult.confidence := 0.0;
     ConsensusResult.consensus := 0.0;
     ConsensusResult.agentAgreement := 0.0;
     ConsensusResult.vetoStatus := None;
     ConsensusResult.agentResults := Some [];
     ConsensusResult.falsePositiveCheck := None;
     ConsensusResult.qualityReport := None;
     ConsensusResult.timestamp := now |}.

(** Returns the result, the engine afterwards, and the agents whose
    [evaluate] was called.  Inside the [try] block only the
    false-positive check can throw. *)
Definition evaluateWithConsensus (this : MultiAgentConsensus)
           (candidate : AnomalyCandidate) (satelliteData : SatelliteData)
  : ConsensusResult.t * MultiAgentConsensus * list string :=
  let qualityReport := performDataQualityCheck satelliteData in
  if negb (pass qualityReport) then
    ({| ConsensusResult.detection := false;
        ConsensusResult.confidence := 0.0;
        ConsensusResult.consensus := 0.0;
        ConsensusResult.agentAgreement := 0.0;
        ConsensusResult.vetoStatus := None;
        ConsensusResult.agentResults := None;
        ConsensusResult.falsePositiveCheck := None;
        ConsensusResult.qualityReport := Some qualityReport;
        ConsensusResult.timestamp := now |}, this, [])
  else
    let '(agentResults, called) := runAgentEvaluations this candidate satelliteData in
    let consensusMetrics := calculateConsensusMetrics this agentResults in
    let vetoResult := applyVetoLogic this agentResults consensusMetrics in
    if vetoed vetoResult then
      ({| ConsensusResult.detection := false;
          ConsensusResult.confidence := calculateWeightedConfidence agentResults None;
          ConsensusResult.consensus := rawConsensus consensusMetrics;
          ConsensusResult.agentAgreement := agreementRatio consensusMetrics;
          ConsensusResult.vetoStatus := Some vetoResult;
          ConsensusResult.agentResults := Some agentResults;
          ConsensusResult.falsePositiveCheck := None;
          ConsensusResult.qualityReport := Some qualityReport;
          ConsensusResult.timestamp := now |}, this, called)
    else
      match checkFalsePositiveDatabase this candidate agentResults with
      | JS.Throw _ => (caughtResult, this, called)
      | JS.Return fpCheck =>
          if isKnownFP fpCheck then
            ({| ConsensusResult.detection := false;
                ConsensusResult.confidence :=
                  calculateWeightedConfidence agentResults None;
                ConsensusResult.consensus := rawConsensus consensusMetrics;
                ConsensusResult.agentAgreement := agreementRatio consensusMetrics;
                ConsensusResult.vetoStatus := None;
                ConsensusResult.agentResults := Some agentResults;
                ConsensusResult.falsePositiveCheck := Some fpCheck;
                ConsensusResult.qualityReport := Some qualityReport;
                ConsensusResult.timestamp := now |}, this, called)
          else
            let finalConfidence :=
              calculateWeightedConfidence agentResults
                (Some (agentWeights consensusMetrics)) in
            let detection :=
              JS.ge finalConfidence (confidenceThreshold (config this)) in
            let result :=
              {| ConsensusResult.detection := detection;
                 ConsensusResult.confidence := finalConfidence;
                 ConsensusResult.consensus := rawConsensus consensusMetrics;
                 ConsensusResult.agentAgreement := agreementRatio consensusMetrics;
                 ConsensusResult.vetoStatus := None;
                 ConsensusResult.agentResults := Some agentResults;
                 ConsensusResult.falsePositiveCheck := None;
                 ConsensusResult.qualityReport := Some qualityReport;
                 ConsensusResult.timestamp := now |} in
            (result, pushHistory this result, called)
      end.

(** *** Statistics *)

Record ConsensusStatistics : Type := {
  totalEvaluations : nat;
  detectionRate : float;
  vetoRate : float;
  stat_averageConfidence : float;
  averageConsensus : float;
  registeredAgents : nat
}.

Definition isVetoed (r : ConsensusResult.t) : bool :=
  match ConsensusResult.vetoStatus r with
  | Some v => vetoed v
  | None => false
  end.

Definition getConsensusStatistics (this : MultiAgentConsensus)
  : option ConsensusStatistics :=
  let total := List.length (consensusHistory this) in
  if Nat.eqb total 0 then None
  else
    let detections :=
      List.length (filter ConsensusResult.detection (consensusHistory this)) in
    let vetoes := List.length (filter isVetoed (consensusHistory this)) in
    let avgConfidence :=
      fold_left (fun sum r => sum + ConsensusResult.confidence r)
                (consensusHistory this) 0 / JS.num total in
    let avgConsensus :=
      fold_left (fun sum r => sum + ConsensusResult.consensus r)
                (consensusHistory this) 0 / JS.num total in
    Some {| totalEvaluations := total;
            detectionRate := JS.num detections / JS.num total;
            vetoRate := JS.num vetoes / JS.num total;
            stat_averageConfidence := avgConfidence;
            averageConsensus := avgConsensus;
            registeredAgents := List.length (agents this) |}.

End Engine.

(** The three components of what [evaluateWithConsensus] returns. *)
Definition resultOf (out : ConsensusResult.t * MultiAgentConsensus * list string)
  : ConsensusResult.t := fst (fst out).
Definition engineAfter (out : ConsensusResult.t * MultiAgentConsensus * list string)
  : MultiAgentConsensus := snd (fst out).
Definition calledOf (out : ConsensusResult.t * MultiAgentConsensus * list string)
  : list string := snd out.

(** An agent fails when its promise rejects, or does not settle before the
    timer armed for [maxProcessingTime] fires. *)
Definition agentFails (maxProcessingTime : float) (p : JS.Promise AgentResult.t) : bool :=
  match p with
  | JS.Fulfilled t _ => negb (JS.lt t (timerDelay maxProcessingTime))
  | JS.Rejected _ => true
  | JS.Pending => true
  end.

(** Some registered pattern scores above 0.7 on the evaluation's features. *)
Definition fpMatches (this : MultiAgentConsensus) (candidate : AnomalyCandidate)
           (agentResults : list (string * AgentResult.t)) : Prop :=
  exists patternId pattern score,
    In (patternId, pattern) (falsePositiveDatabase this) /\
    calculatePatternMatch (extractAnomalyFeatures candidate agentResults) pattern
      = JS.Return score /\
    JS.gt score 0.7 = true.




(** Two engines that differ at most in [consensusThreshold]. *)
Record sameUpToConsensusThreshold (e1 e2 : MultiAgentConsensus) : Prop := {
  same_agents : agents e1 = agents e2;
  same_history : consensusHistory e1 = consensusHistory e2;
  same_database : falsePositiveDatabase e1 = falsePositiveDatabase e2;
  same_vetoEnabled : vetoEnabled (config e1) = vetoEnabled (config e2);
  same_confidenceThreshold :
    confidenceThreshold (config e1) = confidenceThreshold (config e2);
  same_maxProcessingTime : maxProcessingTime (config e1) = maxProcessingTime (config e2);
  same_parallelExecution : parallelExecution (config e1) = parallelExecution (config e2)
}.

(** The configurations the specification calls well-formed: both thresholds
    in [0,1] and a finite time limit. *)
Definition inUnitInterval (x : float) : bool :=
  PrimFloat.leb 0 x && PrimFloat.leb x 1.

Definition finite (x : float) : bool :=
  negb (PrimFloat.is_nan x) && negb (PrimFloat.is_infinity x).

Definition validConfig (c : ConsensusConfig) : bool :=
  inUnitInterval (consensusThreshold c) &&
  inUnitInterval (confidenceThreshold c) &&
  finite (maxProcessingTime c).

(** The unordered pairs of equal flags among [t] true and [f] false ones. *)
Definition agreeingPairs (flags : list bool) : nat :=
  let t := List.length (filter (fun b => b) flags) in
  let f := List.length (filter negb flags) in
  (t * (t - 1) / 2 + f * (f - 1) / 2)%nat.

(** ** Sample inputs *)

Module Sample.

Definition clock : string := "2024-01-01T00:00:00.000Z".

Definition candidate : AnomalyCandidate :=
  {| coordinates := {| latitude := 5.5; longitude := 0.25 |};
     targetResource := "gold";
     geologicalContext := "craton";
     depth := None;
     radius := None;
     timeRange := ("2023-01-01", "2024-01-01") |}.

(** No optical, SAR, thermal or elevation channel: quality score 0.775. *)
Definition gravityOnly : SatelliteData :=
  {| optical := None; sar := None; thermal := None;
     gravity := Some {| grace := JS.object; goce := JS.object |};
     hyperspectral := None; elevation := None |}.

(** An optical channel without Sentinel-2: quality score 0.73. *)
Definition cloudyOptical : SatelliteData :=
  {| optical := Some {| sentinel2 := JS.undefined;
                        landsat8 := JS.object;
                        landsat9 := JS.undefined |};
     sar := None; thermal := None; gravity := None;
     hyperspectral := None; elevation := None |}.

Definition verdict (agentName : string) (detection : bool)
           (confidence uncertainty : float)
           (physics : option PhysicsValidation) : AgentResult.t :=
  {| AgentResult.agentName := agentName;
     AgentResult.detection := detection;
     AgentResult.confidence := confidence;
     AgentResult.uncertainty := uncertainty;
     AgentResult.data := None;
     AgentResult.metadata :=
       {| processingTime := 12; method := "sample"; timestamp := clock |};
     AgentResult.vetoPower := None;
     AgentResult.physicsValidation := physics |}.

(** An agent whose promise settles as given. *)
Definition agentSettling (agentName : string) (priority : float)
           (outcome : JS.Promise AgentResult.t) : BaseAgent.t :=
  BaseAgent.mk agentName "sample" priority false (fun _ _ => outcome).

Definition agentReporting (agentName : string) (priority : float)
           (detection : bool) (confidence uncertainty : float) : BaseAgent.t :=
  agentSettling agentName priority
    (JS.Fulfilled 12 (verdict agentName detection confidence uncertainty None)).

Definition engineWith (c : ConsensusConfig) (registered : list BaseAgent.t)
           (database : list (string * FPPattern)) : MultiAgentConsensus :=
  fold_left registerAgent registered
    {| agents := []; config := c; consensusHistory := [];
       falsePositiveDatabase := database |}.

(** An agent whose physics validation fails with residual 1.2. *)
Definition violatingAgent : BaseAgent.t :=
  agentSettling "QuantumInversionAgent" 3
    (JS.Fulfilled 12
       (verdict "QuantumInversionAgent" true 0.85 0
          (Some {| passesPhysics := false;
                   violations := ["Density-depth relationship violation"];
                   residualScore := 1.2 |}))).

Definition vetoedEngine : MultiAgentConsensus :=
  engineWith defaultConfig
    [agentReporting "GravimetricDecompositionAgent" 2 true 0.9 0;
     agentReporting "SpectralEvolutionAgent" 2 true 0.8 0;
     violatingAgent] [].

(** One detector of priority 0 that detects with confidence 0.9. *)
Definition zeroPriorityEngine : MultiAgentConsensus :=
  engineWith defaultConfig [agentReporting "A" 0 true 0.9 0] [].

(** A pattern stored with a plain array of expected detections. *)
Definition flatPattern : FPPattern :=
  {| name := "laterite cap";
     resource := "gold";
     geology := "craton";
     agentPattern := PatternArray [("A", true)] |}.

Definition flatPatternEngine : MultiAgentConsensus :=
  engineWith defaultConfig [agentReporting "A" 1 true 0.9 0] [("fp-1", flatPattern)].

(** One agent that rejects, one that never settles, one that answers. *)
Definition flakyEngine : MultiAgentConsensus :=
  engineWith defaultConfig
    [agentSettling "A" 1 (JS.Rejected 3);
     agentSettling "B" 1 JS.Pending;
     agentReporting "C" 1 true 0.4 0] [].

(** An agent registered under the name ['__proto__'] that rejects. *)
Definition protoEngine : MultiAgentConsensus :=
  engineWith defaultConfig
    [agentSettling "__proto__" 1 (JS.Rejected 3);
     agentReporting "C" 1 true 0.4 0] [].

(** A time limit of -1 ms, and an agent whose promise is already fulfilled
    when it is returned. *)
Definition negativeLimitEngine : MultiAgentConsensus :=
  engineWith {| consensusThreshold := 0.85;
                vetoEnabled := true;
                confidenceThreshold := 0.7;
                maxProcessingTime := -1;
                parallelExecution := true |}
    [agentSettling "A" 1 (JS.Fulfilled 0 (verdict "A" true 0.9 0 None))] [].

Definition thresholdEngine (consensus : float) : MultiAgentConsensus :=
  engineWith {| consensusThreshold := consensus;
                vetoEnabled := true;
                confidenceThreshold := 0.7;
                maxProcessingTime := 300000;
                parallelExecution := true |}
    [agentReporting "A" 2 true 0.9 0; agentReporting "B" 1 false 0.2 0.5] [].

(** A consensus threshold of 5, a confidence threshold of -1, an infinite
    time limit and a veto switch supplied as [undefined]. *)
Definition malformedConfig : PartialConfig :=
  {| p_consensusThreshold := supplied (Some 5);
     p_vetoEnabled := supplied None;
     p_confidenceThreshold := supplied (Some (-1));
     p_maxProcessingTime := supplied (Some infinity);
     p_parallelExecution := absent |}.



Definition deepCandidate : AnomalyCandidate :=
  {| coordinates := {| latitude := 5.5; longitude := 0.25 |};
     targetResource := "gold";
     geologicalContext := "craton";
     depth := Some 1500;
     radius := None;
     timeRange := ("2023-01-01", "2024-01-01") |}.

(** An agent that reports a physics violation for candidates with a depth
    and a clean detection otherwise. *)
Definition depthSensitiveAgent : BaseAgent.t :=
  BaseAgent.mk "QuantumInversionAgent" "sample" 1 false
    (fun candidate _ =>
       JS.Fulfilled 12
         (verdict "QuantumInversionAgent" true 0.9 0
            (match depth candidate with
             | Some _ => Some {| passesPhysics := false;
                                 violations := ["Density-depth relationship violation"];
                                 residualScore := 1.2 |}
             | None => None
             end))).

Definition depthSensitiveEngine : MultiAgentConsensus :=
  engineWith defaultConfig [depthSensitiveAgent] [].

Definition emptyEngine : MultiAgentConsensus := engineWith defaultConfig [] [].

Definition loneEngine : MultiAgentConsensus :=
  engineWith defaultConfig [agentReporting "A" 1 true 0.9 0] [].

End Sample.

(** ** Engines built through the public methods *)

(** The engines a caller can obtain: constructed, then changed only by
    [registerAgent], [removeAgent] and [evaluateWithConsensus]. *)
Inductive reachable : MultiAgentConsensus -> Prop :=
| reach_constructor (c : PartialConfig) (this : MultiAgentConsensus) :
    constructor c = JS.Return this -> reachable this
| reach_registerAgent (this : MultiAgentConsensus) (agent : BaseAgent.t) :
    reachable this -> reachable (registerAgent this agent)
| reach_removeAgent (this : MultiAgentConsensus) (agentName : string) :
    reachable this -> reachable (removeAgent this agentName)
| reach_evaluate (now : string) (this : MultiAgentConsensus)
                 (candidate : AnomalyCandidate) (satelliteData : SatelliteData) :
    reachable this ->
    reachable (engineAfter (evaluateWithConsensus now this candidate satelliteData)).

(** What the history can hold: the result of a final decision. *)
Definition finalDecision (r : ConsensusResult.t) : Prop :=
  ConsensusResult.vetoStatus r = None /\
  ConsensusResult.falsePositiveCheck r = None /\
  (exists agentResults, ConsensusResult.agentResults r = Some agentResults) /\
  (exists report, ConsensusResult.qualityReport r = Some report /\ pass report = true).

(** A result whose physics validation failed, and one whose residual is
    above 1.0: the tests of the third and fifth veto rules. *)
Definition physicsFails (result : AgentResult.t) : bool :=
  match AgentResult.physicsValidation result with
  | Some pv => negb (passesPhysics pv)
  | None => false
  end.

Definition residualHigh (result : AgentResult.t) : bool :=
  match AgentResult.physicsValidation result with
  | Some pv => JS.gt (residualScore pv) 1.0
  | None => false
  end.

(** ** Helpers of the abstract [BaseAgent] class *)

(** The sub-object that [extractSatelliteData] hands back. *)
Inductive Channel : Type :=
| GravityChannel (g : Gravity)
| OpticalChannel (o : Optical)
| SarChannel (s : Sar)
| ThermalChannel (t : Thermal)
| HyperspectralChannel (h : Hyperspectral)
| ElevationChannel (e : Elevation).

(** The thermal test reads [satelliteData.thermal?.landsat]; the thermal
    object has the properties [landsatThermal] and [modisLST] only, so the
    value read is [undefined]. *)
Definition extractSatelliteData (satelliteData : SatelliteData) : option Channel :=
  if has (gravity satelliteData) grace || has (gravity satelliteData) goce
  then option_map GravityChannel (gravity satelliteData)
  else if has (optical satelliteData) sentinel2
          || has (optical satelliteData) landsat8
          || has (optical satelliteData) landsat9
  then option_map OpticalChannel (optical satelliteData)
  else if has (sar satelliteData) sentinel1
  then option_map SarChannel (sar satelliteData)
  else if has (thermal satelliteData) (fun _ => JS.undefined)
  then option_map ThermalChannel (thermal satelliteData)
  else if has (hyperspectral satelliteData) prisma
          || has (hyperspectral satelliteData) enmap
  then option_map HyperspectralChannel (hyperspectral satelliteData)
  else if has (elevation satelliteData) srtm
  then option_map ElevationChannel (elevation satelliteData)
  else None.

(** The numeric properties that [validatePhysics] reads from its untyped
    argument; [None] is an absent property. *)
Module PhysicsSubject.
Record t : Type := mk {
  density : option float;
  depth : option float;
  temperature : option float;
  gravityAnomaly : option float
}.
End PhysicsSubject.

(** Truthiness and numeric value of an optional numeric property. *)
Definition truthyProperty (o : option float) : bool :=
  match o with Some x => JS.truthy_number x | None => false end.

Definition numericProperty (o : option float) : float :=
  match o with Some x => x | None => nan end.

(** [table[key] || fallback] on an object literal of numbers.  For a key
    that names a member of [Object.prototype] the lookup finds the inherited
    function or object, which is truthy.  The callers add a number to it,
    subtract it from a number or multiply it, and compare the outcome with
    a number: every such difference, product and comparison comes out as it
    does for NaN, which stands for the inherited value here. *)
Definition lookupOr (table : list (string * float)) (key : string) (fallback : float)
  : float :=
  match JS.get key table with
  | Some v => if JS.truthy_number v then v else fallback
  | None => if Obj.inherited key then nan else fallback
  end.

Definition calculateExpectedDensity (depth : float) (geologicalContext : string)
  : float :=
  let baseDensities :=
    [("sedimentary", 2.3); ("igneous", 2.7); ("metamorphic", 2.8); ("basin", 2.4);
     ("craton", 2.8); ("orogen", 2.6); ("shield", 2.9)] in
  let baseDensity := lookupOr baseDensities geologicalContext 2.6 in
  baseDensity + (depth / 10000) * 0.2.

Definition calculateExpectedTemperature (depth : float) (geologicalContext : string)
  : float :=
  let gradient := 28 in
  let surfaceTemp := 15 in
  surfaceTemp + (depth / 1000) * gradient.

Definition getExpectedGravityCorrelation (geologicalContext : string) : float :=
  let correlations :=
    [("basin", -30); ("craton", -15); ("orogen", -25); ("shield", -10);
     ("platform", -20)] in
  lookupOr correlations geologicalContext (-20).

(** One guarded check of [validatePhysics]: when [applies] and the error
    exceeds its bound, a violation is pushed and the residual grows. *)
Definition physicsCheck (applies : bool) (error bound penalty : float)
           (violation : string) (st : list string * float) : list string * float :=
  if applies && JS.gt error bound
  then ((fst st ++ [violation])%list, snd st + penalty)
  else st.

Definition validatePhysics (result : PhysicsSubject.t) (geologicalContext : string)
  : PhysicsValidation :=
  let st := ([], 0) in
  let depth := numericProperty (PhysicsSubject.depth result) in
  let hasDepth := truthyProperty (PhysicsSubject.depth result) in
  let densityError :=
    PrimFloat.abs (numericProperty (PhysicsSubject.density result)
                   - calculateExpectedDensity depth geologicalContext) in
  let st := physicsCheck (truthyProperty (PhysicsSubject.density result) && hasDepth)
                         densityError 0.3 densityError
                         "Density-depth relationship violation" st in
  let tempError :=
    PrimFloat.abs (numericProperty (PhysicsSubject.temperature result)
                   - calculateExpectedTemperature depth geologicalContext) in
  let st := physicsCheck (truthyProperty (PhysicsSubject.temperature result) && hasDepth)
                         tempError 5 (tempError / 10)
                         "Temperature-depth relationship violation" st in
  let expectedCorrelation := getExpectedGravityCorrelation geologicalContext in
  let correlationError :=
    PrimFloat.abs (numericProperty (PhysicsSubject.gravityAnomaly result)
                   - expectedCorrelation) in
  let st := physicsCheck (truthyProperty (PhysicsSubject.gravityAnomaly result)
                          && negb (String.eqb geologicalContext ""))
                         correlationError (expectedCorrelation * 0.5)
                         (correlationError / expectedCorrelation)
                         "Gravity-geology correlation violation" st in
  {| passesPhysics := Nat.eqb (List.length (fst st)) 0;
     violations := fst st;
     residualScore := snd st / 3 |}.

(** [Math.max], [isNaN] and [isFinite] on numbers. *)
Definition Math_max (a b : float) : float :=
  if PrimFloat.is_nan a || PrimFloat.is_nan b then nan
  else if PrimFloat.ltb a b then b else a.

Definition isNaN (x : float) : bool := PrimFloat.is_nan x.

Definition isFinite (x : float) : bool :=
  negb (PrimFloat.is_nan x) && negb (PrimFloat.is_infinity x).

(** [BaseAgent.calculateUncertainty]. *)
Definition calculateUncertainty (dataQuality methodConfidence : float)
           (environmentalFactors : list float) : float :=
  let baseUncertainty := 1 - dataQuality * methodConfidence in
  let environmentalUncertainty :=
    fold_left (fun sum factor => sum + factor) environmentalFactors 0
    / JS.num (List.length environmentalFactors) in
  JS.Math_min 0.95 (baseUncertainty + environmentalUncertainty).

(** ** The gravimetric decomposition agent *)

Module Gravimetric.

Definition Grid : Type := list (list float).

Record Signature : Type := {
  wavelength : string;
  amplitude : string;
  depthRange : float * float;
  expectedAmplitude : float * float
}.

Definition TARGET_SIGNATURES : list (string * Signature) :=
  [ ("hydrocarbon", {| wavelength := "medium"; amplitude := "negative";
                       depthRange := (2000, 8000);
                       expectedAmplitude := (-40, -20) |});
    ("gold", {| wavelength := "short"; amplitude := "positive";
                depthRange := (0, 3000); expectedAmplitude := (5, 30) |});
    ("copper", {| wavelength := "short"; amplitude := "positive";
                  depthRange := (0, 4000); expectedAmplitude := (8, 25) |});
    ("nickel", {| wavelength := "short"; amplitude := "positive";
                  depthRange := (1000, 5000); expectedAmplitude := (10, 35) |});
    ("lithium", {| wavelength := "medium"; amplitude := "negative";
                   depthRange := (500, 3000);
                   expectedAmplitude := (-25, -15) |});
    ("uranium", {| wavelength := "short"; amplitude := "positive";
                   depthRange := (100, 2000); expectedAmplitude := (3, 15) |}) ].

Definition CUTOFF_SHORT : float := 50.
Definition CUTOFF_MEDIUM : float := 150.
Definition CUTOFF_LONG : float := infinity.

(** [super('GravimetricDecompositionAgent', 'gravimetric', 2, true)]. *)
Definition agentName : string := "GravimetricDecompositionAgent".
Definition agentType : string := "gravimetric".
Definition agentPriority : float := 2.
Definition agentVetoPower : bool := true.

Record DataQuality : Type := {
  valid : bool;
  quality : float;
  dq_issues : list string
}.

Record GravityAnomaly : Type := {
  ga_coordinates : Coordinates;
  ga_amplitude : float;
  wavelengthComponent : string;
  ga_depth : float;
  ga_confidence : float;
  physicalInterpretation : string
}.

Record DecomposedGravity : Type := {
  longWavelength : Grid;
  mediumWavelength : Grid;
  shortWavelength : Grid;
  original : Grid;
  residuals : Grid
}.

(** The value of [hasAdequateTemporalCoverage] is only tested for
    truthiness. *)
Definition hasAdequateTemporalCoverage (satelliteData : SatelliteData) : bool :=
  has (gravity satelliteData) grace || has (gravity satelliteData) goce.

Definition hasSignificantGaps (satelliteData : SatelliteData) : bool := false.

Definition validateDataQuality (satelliteData : SatelliteData) : DataQuality :=
  let st := ([], 1.0) in
  let st :=
    if negb (has (gravity satelliteData) grace)
       && negb (has (gravity satelliteData) goce)
    then ((fst st ++ ["No satellite gravity data available"])%list, snd st - 0.5)
    else st in
  let st :=
    if has (gravity satelliteData) grace then (fst st, snd st - 0.2) else st in
  let st :=
    if negb (hasAdequateTemporalCoverage satelliteData)
    then ((fst st
           ++ ["Insufficient temporal coverage for gravity decomposition"])%list,
          snd st - 0.3)
    else st in
  let st :=
    if hasSignificantGaps satelliteData
    then ((fst st ++ ["Significant data gaps detected"])%list, snd st - 0.4)
    else st in
  {| valid := JS.gt (snd st) 0.5;
     quality := Math_max 0 (snd st);
     dq_issues := fst st |}.

(** [grid[i][j]] on a row that exists; a missing column is [undefined],
    which is NaN in arithmetic and fails every comparison. *)
Definition cell (grid : Grid) (i j : nat) : float :=
  match nth_error grid i with
  | Some row => match nth_error row j with Some v => v | None => nan end
  | None => nan
  end.

(** [grid[i]?.[j]]. *)
Definition cellOption (grid : Grid) (i j : nat) : option float :=
  match nth_error grid i with
  | Some row => nth_error row j
  | None => None
  end.

(** [grid[0].length], read where the grid has a first row. *)
Definition columns (grid : Grid) : nat :=
  match grid with
  | [] => 0
  | row :: _ => List.length row
  end.

(** The number of rounds of [for (let i = 0; i < size; i++)] for a size of
    at most 15, which is what [applyLowPassFilter] passes. *)
Definition rounds (size : float) : nat :=
  List.length (filter (fun i => JS.lt (JS.num i) size) (seq 0 15)).

Definition createAverageKernel (size : float) : Grid :=
  let value := 1 / (size * size) in
  repeat (repeat value (rounds size)) (rounds size).

Definition applyConvolution (data kernel : Grid) : JS.Throws Grid :=
  match kernel with
  | [] =>
      JS.Throw (JS.TypeError "Cannot read properties of undefined (reading 'length')")
  | firstRow :: _ =>
      let kHeight := List.length kernel in
      let kWidth := List.length firstRow in
      let pad := (kWidth / 2)%nat in
      JS.Return
        (map (fun i =>
           map (fun j =>
             fold_left (fun sum ki =>
               fold_left (fun sum kj =>
                 let di := (Z.of_nat i + Z.of_nat ki - Z.of_nat pad)%Z in
                 let dj := (Z.of_nat j + Z.of_nat kj - Z.of_nat pad)%Z in
                 if (0 <=? di)%Z && (di <? Z.of_nat (List.length data))%Z
                    && (0 <=? dj)%Z && (dj <? Z.of_nat (columns data))%Z
                 then sum + cell data (Z.to_nat di) (Z.to_nat dj) * cell kernel ki kj
                 else sum)
               (seq 0 kWidth) sum)
             (seq 0 kHeight) 0)
           (seq 0 (columns data)))
         (seq 0 (List.length data)))
  end.

Definition applyLowPassFilter (data : Grid) (cutoff : float) : JS.Throws Grid :=
  let kernelSize := JS.Math_min 15 (Math_floor (cutoff / 10)) in
  applyConvolution data (createAverageKernel kernelSize).

(** [a.map((row, i) => row.map((val, j) => val - b[i][j]))]. *)
Definition subtractGrid (a b : Grid) : Grid :=
  map (fun irow =>
         map (fun jval => snd jval - cell b (fst irow) (fst jval))
             (combine (seq 0 (List.length (snd irow))) (snd irow)))
      (combine (seq 0 (List.length a)) a).

Definition applyHighPassFilter (data : Grid) (cutoff : float) : JS.Throws Grid :=
  lowPass <- applyLowPassFilter data cutoff ;;
  JS.Return (subtractGrid data lowPass).

Definition applyBandPassFilter (data : Grid) (lowCutoff highCutoff : float)
  : JS.Throws Grid :=
  lowPass <- applyLowPassFilter data highCutoff ;;
  veryLowPass <- applyLowPassFilter data lowCutoff ;;
  JS.Return (subtractGrid lowPass veryLowPass).

Definition addComponents (components : list Grid) : JS.Throws Grid :=
  match components with
  | (firstRow :: _) as first :: _ =>
      let rows := List.length first in
      let cols := List.length firstRow in
      JS.Return
        (map (fun i =>
                map (fun j => fold_left (fun sum comp => sum + cell comp i j)
                                        components 0)
                    (seq 0 cols))
             (seq 0 rows))
  | _ =>
      JS.Throw (JS.TypeError "Cannot read properties of undefined (reading 'length')")
  end.

Definition decomposeGravityField (gravityData : Grid) (candidate : AnomalyCandidate)
  : JS.Throws DecomposedGravity :=
  match gravityData with
  | [] =>
      JS.Throw (JS.TypeError "Cannot read properties of undefined (reading 'length')")
  | _ :: _ =>
      longWavelength <- applyLowPassFilter gravityData CUTOFF_LONG ;;
      mediumWavelength <- applyBandPassFilter gravityData 50 CUTOFF_LONG ;;
      shortWavelength <- applyHighPassFilter gravityData CUTOFF_SHORT ;;
      reconstructed <-
        addComponents [longWavelength; mediumWavelength; shortWavelength] ;;
      JS.Return {| longWavelength := longWavelength;
                   mediumWavelength := mediumWavelength;
                   shortWavelength := shortWavelength;
                   original := gravityData;
                   residuals := subtractGrid gravityData reconstructed |}
  end.

Definition isLocalExtremum (data : Grid) (i j : nat) (type : string) : bool :=
  let value := cell data i j in
  let neighbors :=
    flat_map (fun o => match o with Some v => [v] | None => [] end)
             [ match i with O => None | S i' => cellOption data i' j end;
               cellOption data (S i) j;
               match j with O => None | S j' => cellOption data i j' end;
               cellOption data i (S j) ] in
  if String.eqb type "positive"
  then forallb (fun neighbor => JS.gt value neighbor) neighbors
  else forallb (fun neighbor => JS.lt value neighbor) neighbors.

Definition estimateDepth (amplitude : float) (signature : Signature) : float :=
  let '(minDepth, maxDepth) := depthRange signature in
  let '(minAmp, maxAmp) := expectedAmplitude signature in
  let normalizedAmp := (amplitude - minAmp) / (maxAmp - minAmp) in
  minDepth + normalizedAmp * (maxDepth - minDepth).

Definition assessDataGaps (gravityData : Grid) : float :=
  let validPoints :=
    List.length (filter (fun val => negb (isNaN val) && isFinite val)
                        (List.concat gravityData)) in
  let totalPoints := List.length (List.concat gravityData) in
  1 - JS.num validPoints / JS.num totalPoints.

Definition assessTemporalVariability (satelliteData : SatelliteData) : float := 0.1.

(** The part of the agent that depends on library functions without a
    counterpart here ([Math.random], [Math.exp], [Math.tanh], [Math.pow],
    number formatting) and on the clock takes them as parameters. *)
Section Evaluation.

(** The successive values of [Math.random()]. *)
Variable Math_random : nat -> float.
Variables Math_exp Math_tanh : float -> float.
Variable Math_pow : float -> float -> float.
(** [String(x)] and [x.toFixed(1)]. *)
Variables numberToString toFixed1 : float -> string.
(** [Date.now() - startTime] and [new Date().toISOString()]. *)
Variable elapsed : float.
Variable now : string.

Definition createFailureResult (reason : string) : AgentResult.t :=
  {| AgentResult.agentName := agentName;
     AgentResult.detection := false;
     AgentResult.confidence := 0.0;
     AgentResult.uncertainty := 1.0;
     AgentResult.data := None;
     AgentResult.metadata :=
       {| processingTime := elapsed;
          method := "multi_orbit_gravimetric_decomposition";
          timestamp := now |};
     AgentResult.vetoPower := Some agentVetoPower;
     AgentResult.physicsValidation := None |}.

Definition addSyntheticAnomaly (i j : nat) (size : float) : float :=
  let centerX := size * 0.3 in
  let centerY := size * 0.7 in
  let distance :=
    PrimFloat.sqrt (Math_pow (JS.num i - centerX) 2 + Math_pow (JS.num j - centerY) 2) in
  if JS.lt distance 5 then 15 * Math_exp (- distance / 3) else 0.

Definition generateSyntheticGravityData : Grid :=
  let size := 50%nat in
  map (fun i =>
         map (fun j =>
                let baseValue := -20 in
                let anomaly := addSyntheticAnomaly i j (JS.num size) in
                baseValue + anomaly + (Math_random (i * size + j)%nat - 0.5) * 2)
             (seq 0 size))
      (seq 0 size).

Definition extractGravityData (satelliteData : SatelliteData) : Grid :=
  generateSyntheticGravityData.

Definition assessNoiseLevel (gravityData : Grid) : float :=
  let flatData := List.concat gravityData in
  let mean :=
    fold_left (fun sum val => sum + val) flatData 0 / JS.num (List.length flatData) in
  let variance :=
    fold_left (fun sum val => sum + Math_pow (val - mean) 2) flatData 0
    / JS.num (List.length flatData) in
  JS.Math_min 1.0 (variance / 100).

Definition calculateAnomalyConfidence (value threshold mean stdDev : float) : float :=
  let signalStrength := PrimFloat.abs (value - threshold) in
  let noiseLevel := stdDev in
  let signalToNoise := signalStrength / (noiseLevel + 0.001) in
  Math_tanh (signalToNoise / 2).

(** [interpretations[signature.wavelength] || 'Unknown gravity anomaly']:
    the table is keyed by resource, the lookup by wavelength. *)
Definition interpretAnomaly (amplitude : float) (signature : Signature) (depth : float)
  : string :=
  let interpretations :=
    [ ("hydrocarbon",
       (if JS.lt amplitude (-30) then "Strong" else "Moderate")
       ++ " gravity anomaly suggesting sedimentary basin at "
       ++ numberToString depth ++ "m depth");
      ("gold",
       "High-density anomaly (" ++ toFixed1 amplitude
       ++ " mGal) indicative of gold mineralization at "
       ++ numberToString depth ++ "m");
      ("copper",
       "Dense anomaly consistent with copper-bearing ore body at "
       ++ numberToString depth ++ "m depth");
      ("nickel",
       "Gravity high suggesting ultramafic intrusion and nickel mineralization at "
       ++ numberToString depth ++ "m");
      ("lithium",
       "Gravity low in basin setting, potential lithium brine reservoir at "
       ++ numberToString depth ++ "m");
      ("uranium",
       "Localized gravity high, possible uranium roll-front deposit at "
       ++ numberToString depth ++ "m") ] in
  match JS.get (wavelength signature) interpretations with
  | Some text => if String.eqb text "" then "Unknown gravity anomaly" else text
  | None => "Unknown gravity anomaly"
  end.

Definition detectAnomalies (decomposed : DecomposedGravity) (targetResource : string)
  : list GravityAnomaly :=
  match JS.get targetResource TARGET_SIGNATURES with
  | None => []
  | Some signature =>
      let selected :=
        if String.eqb (wavelength signature) "short"
        then Some (shortWavelength decomposed)
        else if String.eqb (wavelength signature) "medium"
        then Some (mediumWavelength decomposed)
        else if String.eqb (wavelength signature) "long"
        then Some (longWavelength decomposed)
        else None in
      match selected with
      | None => []
      | Some component =>
          let flatData := List.concat component in
          let mean :=
            fold_left (fun sum val => sum + val) flatData 0
            / JS.num (List.length flatData) in
          let stdDev :=
            PrimFloat.sqrt
              (fold_left (fun sum val => sum + Math_pow (val - mean) 2) flatData 0
               / JS.num (List.length flatData)) in
          let '(minExpected, maxExpected) := expectedAmplitude signature in
          let positive := String.eqb (amplitude signature) "positive" in
          let threshold :=
            if positive then mean + stdDev * 2 else mean - stdDev * 2 in
          flat_map (fun i =>
            flat_map (fun j =>
              let value := cell component i j in
              let meetsAmplitude :=
                if positive
                then JS.gt value threshold && JS.ge value minExpected
                else JS.lt value threshold && PrimFloat.leb value maxExpected in
              if meetsAmplitude
                 && isLocalExtremum component i j (amplitude signature)
              then
                let depth := estimateDepth value signature in
                let confidence :=
                  calculateAnomalyConfidence value threshold mean stdDev in
                [ {| ga_coordinates := {| latitude := 0; longitude := 0 |};
                     ga_amplitude := value;
                     wavelengthComponent := wavelength signature;
                     ga_depth := depth;
                     ga_confidence := confidence;
                     physicalInterpretation :=
                       interpretAnomaly value signature depth |} ]
              else [])
              (seq 1 (columns component - 2)))
            (seq 1 (List.length component - 2))
      end
  end.

Definition calculateDetectionConfidence (anomalies : list GravityAnomaly)
           (candidate : AnomalyCandidate) : float :=
  if Nat.eqb (List.length anomalies) 0 then 0
  else
    let avgConfidence :=
      fold_left (fun sum a => sum + ga_confidence a) anomalies 0
      / JS.num (List.length anomalies) in
    match JS.get (targetResource candidate) TARGET_SIGNATURES with
    | Some signature =>
        let '(minDepth, maxDepth) := depthRange signature in
        let depthMatches :=
          List.length (filter (fun a => JS.ge (ga_depth a) minDepth
                                        && PrimFloat.leb (ga_depth a) maxDepth)
                              anomalies) in
        let depthMatchRatio := JS.num depthMatches / JS.num (List.length anomalies) in
        avgConfidence * (0.7 + 0.3 * depthMatchRatio)
    | None => avgConfidence
    end.

(** The body of the [try] block of [evaluate].  The list of anomalies that
    is passed to [validatePhysics] is an array: it has none of the
    properties that function reads.  Of the [data] object of the result,
    none of the properties that the veto rules read is set. *)
Definition evaluateBody (candidate : AnomalyCandidate) (satelliteData : SatelliteData)
  : JS.Throws AgentResult.t :=
  let dataQuality := validateDataQuality satelliteData in
  if negb (valid dataQuality)
  then JS.Return (createFailureResult "Insufficient gravity data quality")
  else
    let gravityData := extractGravityData satelliteData in
    decomposed <- decomposeGravityField gravityData candidate ;;
    let anomalies := detectAnomalies decomposed (targetResource candidate) in
    let confidence := calculateDetectionConfidence anomalies candidate in
    let uncertainty :=
      calculateUncertainty (quality dataQuality) confidence
        [ assessDataGaps gravityData;
          assessNoiseLevel gravityData;
          assessTemporalVariability satelliteData ] in
    let physicsValidation :=
      validatePhysics (PhysicsSubject.mk None None None None)
                      (geologicalContext candidate) in
    JS.Return
      {| AgentResult.agentName := agentName;
         AgentResult.detection := Nat.ltb 0 (List.length anomalies);
         AgentResult.confidence := confidence;
         AgentResult.uncertainty := uncertainty;
         AgentResult.data :=
           Some {| short_wavelength_anomaly := JS.undefined;
                   alteration_detected := JS.undefined;
                   coherence_score := None |};
         AgentResult.metadata :=
           {| processingTime := elapsed;
              method := "Multi-wavelength spherical harmonic decomposition";
              timestamp := now |};
         AgentResult.vetoPower := Some agentVetoPower;
         AgentResult.physicsValidation := Some physicsValidation |}.

(** [evaluate]: the promise it returns is always fulfilled, an exception
    of the body being turned into the failure result. *)
Definition evaluate (candidate : AnomalyCandidate) (satelliteData : SatelliteData)
  : AgentResult.t :=
  match evaluateBody candidate satelliteData with
  | JS.Return result => result
  | JS.Throw _ => createFailureResult "Evaluation failed"
  end.

(** The agent as the engine sees it.  [evaluate] has no [await]: its
    promise is already fulfilled when it is returned. *)
Definition agent : BaseAgent.t :=
  BaseAgent.mk agentName agentType agentPriority agentVetoPower
    (fun candidate satelliteData =>
       JS.Fulfilled 0 (evaluate candidate satelliteData)).

End Evaluation.

End Gravimetric.

(** ** Insertion-ordered collections *)

Section CollectionFacts.
Variable V : Type.
Implicit Types (m l : list (string * V)) (k : string) (v : V).


Lemma keys_app m l : JS.keys (m ++ l) = (JS.keys m ++ JS.keys l)%list.
Proof. unfold JS.keys. apply map_app. Qed.



Lemma get_In_NoDup m k v :
  NoDup (JS.keys m) -> In (k, v) m -> JS.get k m = Some v.
Proof.
  induction m as [|[k' v'] m IH]; simpl; intros Hnd Hin; [contradiction|].
  inversion Hnd as [|? ? Hk Hnd']; subst.
  destruct Hin as [Heq|Hin].
  - inversion Heq; subst. now rewrite String.eqb_refl.
  - destruct (String.eqb k k') eqn:E.
    + apply String.eqb_eq in E. subst. exfalso. apply Hk.
      change k' with (fst (k', v)). now apply in_map.
    + now apply IH.
Qed.

Lemma keys_set k v m :
  JS.keys (JS.set k v m) =
  if existsb (String.eqb k) (JS.keys m) then JS.keys m
  else (JS.keys m ++ [k])%list.
Proof.
  induction m as [|[k' v'] m IH]; simpl; [reflexivity|].
  destruct (String.eqb k k') eqn:E; simpl.
  - apply String.eqb_eq in E. now subst.
  - rewrite IH. now destruct (existsb (String.eqb k) (JS.keys m)).
Qed.

Lemma set_NoDup k v m : NoDup (JS.keys m) -> NoDup (JS.keys (JS.set k v m)).
Proof.
  intros Hnd. rewrite keys_set.
  destruct (existsb (String.eqb k) (JS.keys m)) eqn:E; [assumption|].
  apply NoDup_app; [assumption | repeat constructor; intros [] |].
  intros x Hx [Heq|[]]. subst x.
  assert (existsb (String.eqb k) (JS.keys m) = true) as Habs.
  { apply existsb_exists. exists k. split; [assumption | apply String.eqb_refl]. }
  congruence.
Qed.
End CollectionFacts.

(** ** Lookup after update *)

Section LookupFacts.
Variable V : Type.
Implicit Types (m : list (string * V)) (k : string) (v : V).

Lemma get_set_same k v m : JS.get k (JS.set k v m) = Some v.
Proof.
  induction m as [|[k' v'] m IH]; simpl.
  - now rewrite String.eqb_refl.
  - destruct (String.eqb k k') eqn:E; simpl.
    + now rewrite String.eqb_refl.
    + now rewrite E.
Qed.

Lemma get_set_other k k' v m :
  k' <> k -> JS.get k' (JS.set k v m) = JS.get k' m.
Proof.
  intros Hne. induction m as [|[k0 v0] m IH]; simpl.
  - apply String.eqb_neq in Hne. now rewrite Hne.
  - destruct (String.eqb k k0) eqn:E; simpl.
    + apply String.eqb_eq in E. subst k0.
      apply String.eqb_neq in Hne. now rewrite Hne.
    + now rewrite IH.
Qed.

Lemma get_None_not_In k m : JS.get k m = None <-> ~ In k (JS.keys m).
Proof.
  induction m as [|[k0 v0] m IH]; simpl.
  - split; [intros _ [] | reflexivity].
  - destruct (String.eqb k k0) eqn:E.
    + apply String.eqb_eq in E. subst. split; [discriminate|].
      intros H. exfalso. apply H. now left.
    + apply String.eqb_neq in E. rewrite IH. split.
      * intros H [Heq|Hin]; [now apply E | now apply H].
      * intros H Hin. apply H. now right.
Qed.

Lemma get_delete_same k m :
  NoDup (JS.keys m) -> JS.get k (JS.delete k m) = None.
Proof.
  induction m as [|[k0 v0] m IH]; simpl; intros Hnd; [reflexivity|].
  inversion Hnd as [|? ? Hk Hnd']; subst.
  destruct (String.eqb k k0) eqn:E; simpl.
  - apply String.eqb_eq in E. subst. now apply get_None_not_In.
  - rewrite E. now apply IH.
Qed.

Lemma get_delete_other k k' m :
  k' <> k -> JS.get k' (JS.delete k m) = JS.get k' m.
Proof.
  intros Hne. induction m as [|[k0 v0] m IH]; simpl; [reflexivity|].
  destruct (String.eqb k k0) eqn:E; simpl.
  - apply String.eqb_eq in E. subst k0.
    apply String.eqb_neq in Hne. now rewrite Hne.
  - now rewrite IH.
Qed.

Lemma delete_absent k m : ~ In k (JS.keys m) -> JS.delete k m = m.
Proof.
  induction m as [|[k0 v0] m IH]; simpl; intros Hk; [reflexivity|].
  destruct (String.eqb k k0) eqn:E.
  - apply String.eqb_eq in E. subst. exfalso. apply Hk. now left.
  - rewrite IH; [reflexivity|]. intros Hin. apply Hk. now right.
Qed.
End LookupFacts.

(** ** Plain objects *)

Section ObjectFacts.
Variable V : Type.
Implicit Types (o l : list (string * V)) (k : string) (v : V).

Lemma get_app_fresh k v o :
  JS.get k o = None -> JS.get k (o ++ [(k, v)]) = Some v.
Proof.
  induction o as [|[k' v'] o IH]; simpl.
  - now rewrite String.eqb_refl.
  - destruct (String.eqb k k'); [discriminate | exact IH].
Qed.

Lemma get_app_other k k' v o :
  k' <> k -> JS.get k' (o ++ [(k, v)]) = JS.get k' o.
Proof.
  intros Hne. induction o as [|[k0 v0] o IH]; simpl.
  - apply String.eqb_neq in Hne. now rewrite Hne.
  - now rewrite IH.
Qed.

Lemma get_insertIndex_same n k v o :
  JS.get k o = None -> JS.get k (Obj.insertIndex n k v o) = Some v.
Proof.
  induction o as [|[k' v'] o IH]; simpl.
  - now rewrite String.eqb_refl.
  - destruct (String.eqb k k') eqn:E; [discriminate|]. intros Hget.
    destruct (Obj.arrayIndex k') as [n'|]; [destruct (n <? n')%N|]; simpl;
      rewrite ?String.eqb_refl, ?E; auto.
Qed.

Lemma get_insertIndex_other n k k' v o :
  k' <> k -> JS.get k' (Obj.insertIndex n k v o) = JS.get k' o.
Proof.
  intros Hne. apply String.eqb_neq in Hne.
  induction o as [|[k0 v0] o IH]; simpl.
  - now rewrite Hne.
  - destruct (Obj.arrayIndex k0) as [n'|]; [destruct (n <? n')%N|]; simpl;
      rewrite ?Hne, ?IH; reflexivity.
Qed.

(** Reading back the property just assigned, unless it is ['__proto__']. *)
Lemma get_assign_same k v o :
  k <> "__proto__" -> JS.get k (Obj.assign k v o) = Some v.
Proof.
  intros Hk. apply String.eqb_neq in Hk. unfold Obj.assign. rewrite Hk.
  destruct (JS.get k o) eqn:Hget.
  - apply get_set_same.
  - destruct (Obj.arrayIndex k).
    + now apply get_insertIndex_same.
    + now apply get_app_fresh.
Qed.

Lemma get_assign_other k k' v o :
  k' <> k -> JS.get k' (Obj.assign k v o) = JS.get k' o.
Proof.
  intros Hne. unfold Obj.assign.
  destruct (String.eqb k "__proto__"); [reflexivity|].
  destruct (JS.get k o).
  - now apply get_set_other.
  - destruct (Obj.arrayIndex k).
    + now apply get_insertIndex_other.
    + now apply get_app_other.
Qed.

Lemma assign_proto v o : Obj.assign "__proto__" v o = o.
Proof. reflexivity. Qed.

Lemma get_Some_In k v o : JS.get k o = Some v -> In (k, v) o.
Proof.
  induction o as [|[k' v'] o IH]; simpl; [discriminate|].
  destruct (String.eqb k k') eqn:E.
  - apply String.eqb_eq in E. intros H. inversion H; subst. now left.
  - intros H. right. now apply IH.
Qed.

Lemma In_keys_get k o : In k (JS.keys o) <-> exists v, JS.get k o = Some v.
Proof.
  pose proof (get_None_not_In k o) as H.
  destruct (JS.get k o) as [v|].
  - split; [intros _; now exists v|]. intros _.
    destruct (in_dec string_dec k (JS.keys o)) as [Hin|Hout]; [assumption|].
    apply H in Hout. discriminate.
  - split; [|intros [v Hv]; discriminate]. intros Hin.
    exfalso. now apply (proj1 H).
Qed.

(** The own properties after an assignment. *)
Lemma keys_assign k k' v o :
  In k' (JS.keys (Obj.assign k v o))
  <-> In k' (JS.keys o) \/ (k' = k /\ k <> "__proto__").
Proof.
  rewrite !In_keys_get.
  destruct (string_dec k' k) as [->|Hne].
  - destruct (string_dec k "__proto__") as [->|Hk].
    + rewrite assign_proto. intuition.
    + rewrite get_assign_same by assumption. split; [|intros _; now exists v].
      intros _. right. now split.
  - rewrite get_assign_other by assumption. intuition.
Qed.

Lemma insertIndex_NoDup n k v o :
  ~ In k (JS.keys o) -> NoDup (JS.keys o) ->
  NoDup (JS.keys (Obj.insertIndex n k v o)).
Proof.
  induction o as [|[k' v'] o IH]; simpl; intros Hk Hnd.
  - repeat constructor. intros [].
  - inversion Hnd as [|? ? Hk' Hnd']; subst.
    assert (Hhead : NoDup (k :: k' :: JS.keys o)) by now constructor.
    destruct (Obj.arrayIndex k') as [n'|]; [destruct (n <? n')%N|]; simpl;
      try exact Hhead.
    constructor; [|apply IH; [intros Hin; apply Hk; now right | assumption]].
    rewrite In_keys_get. rewrite get_insertIndex_other.
    + rewrite <- In_keys_get. exact Hk'.
    + intros ->. apply Hk. now left.
Qed.

Lemma assign_NoDup k v o :
  NoDup (JS.keys o) -> NoDup (JS.keys (Obj.assign k v o)).
Proof.
  intros Hnd. unfold Obj.assign.
  destruct (String.eqb k "__proto__"); [assumption|].
  destruct (JS.get k o) eqn:Hget; [now apply set_NoDup|].
  apply get_None_not_In in Hget.
  destruct (Obj.arrayIndex k).
  - now apply insertIndex_NoDup.
  - rewrite keys_app. apply NoDup_app; [assumption | repeat constructor; intros [] |].
    intros x Hx [<-|[]]. contradiction.
Qed.

Lemma assignAll_get_fresh k l : forall o,
  ~ In k (JS.keys l) -> JS.get k (Obj.assignAll l o) = JS.get k o.
Proof.
  induction l as [|[k' v'] l IH]; simpl; intros o Hk; [reflexivity|].
  unfold Obj.assignAll in *. simpl. rewrite IH by (intros Hin; apply Hk; now right).
  apply get_assign_other. intros ->. apply Hk. now left.
Qed.

Lemma assignAll_get k v l : forall o,
  NoDup (JS.keys l) -> In (k, v) l -> k <> "__proto__" ->
  JS.get k (Obj.assignAll l o) = Some v.
Proof.
  induction l as [|[k' v'] l IH]; simpl; intros o Hnd Hin Hk; [contradiction|].
  inversion Hnd as [|? ? Hk' Hnd']; subst.
  destruct Hin as [Heq|Hin].
  - inversion Heq; subst. unfold Obj.assignAll. simpl.
    fold (Obj.assignAll l (Obj.assign k v o)).
    rewrite assignAll_get_fresh by assumption. now apply get_assign_same.
  - unfold Obj.assignAll. simpl. now apply IH.
Qed.

Lemma assignAll_keys k l : forall o,
  In k (JS.keys (Obj.assignAll l o))
  <-> In k (JS.keys o) \/ (In k (JS.keys l) /\ k <> "__proto__").
Proof.
  induction l as [|[k' v'] l IH]; simpl; intros o; [tauto|].
  unfold Obj.assignAll in *. simpl. rewrite IH, keys_assign.
  split.
  - intros [[H|[-> H]]|[H1 H2]]; auto.
  - intros [H|[[->|H1] H2]]; auto.
Qed.

Lemma assignAll_NoDup l : forall o,
  NoDup (JS.keys o) -> NoDup (JS.keys (Obj.assignAll l o)).
Proof.
  induction l as [|[k' v'] l IH]; simpl; intros o Hnd; [assumption|].
  unfold Obj.assignAll in *. simpl. now apply IH, assign_NoDup.
Qed.

End ObjectFacts.

(** Array indices come first, in ascending order; the other keys keep the
    order of their first assignment; ['__proto__'] is no property. *)
Lemma assignAll_order :
  Obj.assignAll [("B", 1%nat); ("10", 2%nat); ("__proto__", 3%nat); ("9", 4%nat);
                 ("B", 5%nat); ("01", 6%nat)] []
  = [("9", 4%nat); ("10", 2%nat); ("B", 5%nat); ("01", 6%nat)].
Proof. reflexivity. Qed.

(** ** The agent registry *)

(** The registry of a constructed engine never holds a name twice. *)
Lemma registerAgent_NoDup (this : MultiAgentConsensus) (agent : BaseAgent.t) :
  NoDup (JS.keys (agents this)) ->
  NoDup (JS.keys (agents (registerAgent this agent))).
Proof. intros H. simpl. now apply set_NoDup. Qed.

Lemma delete_keys_incl (V : Type) (k : string) (m : list (string * V)) :
  incl (JS.keys (JS.delete k m)) (JS.keys m).
Proof.
  induction m as [|[k' v'] m IH]; simpl; [apply incl_refl|].
  destruct (String.eqb k k'); simpl.
  - apply incl_tl, incl_refl.
  - intros x [Hx|Hx]; [now left | right; now apply IH].
Qed.

Lemma removeAgent_NoDup (this : MultiAgentConsensus) (agentName : string) :
  NoDup (JS.keys (agents this)) ->
  NoDup (JS.keys (agents (removeAgent this agentName))).
Proof.
  simpl. induction (agents this) as [|[k' v'] m IH]; simpl; intros Hnd;
    [constructor|].
  inversion Hnd as [|? ? Hk Hnd']; subst.
  destruct (String.eqb agentName k'); simpl; [assumption|].
  constructor; [|now apply IH].
  intros Hin. apply Hk. now apply (@delete_keys_incl _ agentName m).
Qed.

Lemma constructor_NoDup (c : PartialConfig) (this : MultiAgentConsensus) :
  constructor c = JS.Return this -> NoDup (JS.keys (agents this)).
Proof. intros H. inversion H; subst. simpl. constructor. Qed.

(** ** The orchestrator *)

Section Orchestrator.
Variable now : string.
Variable this : MultiAgentConsensus.
Variable candidate : AnomalyCandidate.
Variable satelliteData : SatelliteData.

Lemma runTask_name (entry : string * BaseAgent.t) :
  fst (fst (runTask now this candidate satelliteData entry)) = fst entry.
Proof.
  unfold runTask, runAgentWithTimeout. destruct entry as [n a]; simpl.
  destruct (BaseAgent.evaluate a candidate satelliteData) as [t r|t|];
    try destruct (JS.lt t _); reflexivity.
Qed.

Lemma runTask_keys (l : list (string * BaseAgent.t)) :
  JS.keys (map (fun entry => fst (runTask now this candidate satelliteData entry)) l)
  = JS.keys l.
Proof.
  unfold JS.keys. rewrite map_map. apply map_ext. apply runTask_name.
Qed.

Lemma sequential_as_parallel (l : list (string * BaseAgent.t)) :
  forall st,
    fold_left (fun st entry =>
                 let task := runTask now this candidate satelliteData entry in
                 (Obj.assign (fst (fst task)) (snd (fst task)) (fst st),
                  (snd st ++ snd task)%list)) l st
    = (Obj.assignAll
         (map (fun entry => fst (runTask now this candidate satelliteData entry)) l)
         (fst st),
       (snd st
          ++ flat_map (fun entry => snd (runTask now this candidate satelliteData entry))
                      l)%list).
Proof.
  induction l as [|e l IH]; simpl; intros st.
  - rewrite app_nil_r. now destruct st.
  - rewrite IH. simpl. now rewrite <- app_assoc.
Qed.

(** Both execution modes assign one task result per registered agent, in
    registration order, into a fresh object. *)
Lemma runAgentEvaluations_tasks :
  fst (runAgentEvaluations now this candidate satelliteData)
  = Obj.assignAll
      (map (fun entry => fst (runTask now this candidate satelliteData entry))
           (agents this)) [].
Proof.
  unfold runAgentEvaluations.
  destruct (parallelExecution (config this)); simpl.
  - unfold Obj.assignAll. generalize (@nil (string * AgentResult.t)).
    induction (agents this) as [|e l IH]; simpl; intros o; [reflexivity | apply IH].
  - now rewrite sequential_as_parallel.
Qed.

Lemma runTask_failed (agentName : string) (agent : BaseAgent.t) :
  agentFails (maxProcessingTime (config this))
             (BaseAgent.evaluate agent candidate satelliteData) = true ->
  fst (runTask now this candidate satelliteData (agentName, agent))
  = (agentName, failedResult now agentName).
Proof.
  unfold runTask, runAgentWithTimeout, agentFails.
  destruct (BaseAgent.evaluate agent candidate satelliteData) as [t r|t|];
    try destruct (JS.lt t (timerDelay (maxProcessingTime (config this))));
    simpl; intros H; try discriminate; reflexivity.
Qed.

Lemma runTask_answered (agentName : string) (agent : BaseAgent.t)
      (t : float) (result : AgentResult.t) :
  BaseAgent.evaluate agent candidate satelliteData = JS.Fulfilled t result ->
  JS.lt t (timerDelay (maxProcessingTime (config this))) = true ->
  fst (runTask now this candidate satelliteData (agentName, agent))
  = (agentName, result).
Proof.
  unfold runTask, runAgentWithTimeout. intros -> ->. reflexivity.
Qed.

(** The entry of a registered agent is what its task returned. *)
Lemma runAgentEvaluations_entry (agentName : string) (agent : BaseAgent.t) :
  NoDup (JS.keys (agents this)) ->
  In (agentName, agent) (agents this) ->
  agentName <> "__proto__" ->
  JS.get agentName (fst (runAgentEvaluations now this candidate satelliteData))
  = Some (snd (fst (runTask now this candidate satelliteData (agentName, agent)))).
Proof.
  intros Hnd Hin Hname. rewrite runAgentEvaluations_tasks.
  apply assignAll_get; [now rewrite runTask_keys | | assumption].
  apply in_map_iff. exists (agentName, agent). split; [|assumption].
  pose proof (runTask_name (agentName, agent)) as Hfst.
  destruct (fst (runTask now this candidate satelliteData (agentName, agent))).
  simpl in *. now subst.
Qed.

(** The result object has one property per registered agent, the agent
    named ['__proto__'] excepted. *)
Lemma runAgentEvaluations_keys (agentName : string) :
  In agentName (JS.keys (fst (runAgentEvaluations now this candidate satelliteData)))
  <-> In agentName (JS.keys (agents this)) /\ agentName <> "__proto__".
Proof.
  rewrite runAgentEvaluations_tasks, assignAll_keys, runTask_keys. simpl. tauto.
Qed.

Lemma runAgentEvaluations_NoDup :
  NoDup (JS.keys (fst (runAgentEvaluations now this candidate satelliteData))).
Proof. rewrite runAgentEvaluations_tasks. apply assignAll_NoDup. constructor. Qed.

(** Every property of the result object is the task result of a registered
    agent. *)
Lemma runAgentEvaluations_In (agentName : string) (result : AgentResult.t) :
  NoDup (JS.keys (agents this)) ->
  In (agentName, result) (fst (runAgentEvaluations now this candidate satelliteData)) ->
  exists agent,
    In (agentName, agent) (agents this) /\
    agentName <> "__proto__" /\
    result = snd (fst (runTask now this candidate satelliteData (agentName, agent))).
Proof.
  intros Hnd Hin.
  assert (Hkey : In agentName
                   (JS.keys (fst (runAgentEvaluations now this candidate
                                    satelliteData)))).
  { change agentName with (fst (agentName, result)). now apply in_map. }
  apply runAgentEvaluations_keys in Hkey. destruct Hkey as [Hreg Hname].
  apply in_map_iff in Hreg. destruct Hreg as [[n agent] [Hn Hreg]].
  simpl in Hn. subst n. exists agent. split; [assumption|]. split; [assumption|].
  pose proof (runAgentEvaluations_entry agent Hnd Hreg Hname) as Hget.
  rewrite (@get_In_NoDup _ _ agentName result runAgentEvaluations_NoDup Hin) in Hget.
  congruence.
Qed.

(** C4 (as the source has it): a registered agent whose promise rejects, or
    does not settle before the timer armed for [maxProcessingTime] fires,
    is given the synthetic result (no detection, confidence 0, uncertainty
    1, method "failed"), and an agent that settles before the timer keeps
    its own answer, whenever the agent is not named ['__proto__']; the
    orchestrator always returns, no property of the result object occurs
    twice, and a name other than ['__proto__'] is a property of it exactly
    when an agent is registered under it. *)
Theorem failed_agents_are_substituted :
  NoDup (JS.keys (agents this)) ->
  let agentResults := fst (runAgentEvaluations now this candidate satelliteData) in
  (forall agentName agent,
      In (agentName, agent) (agents this) ->
      agentName <> "__proto__" ->
      agentFails (maxProcessingTime (config this))
                 (BaseAgent.evaluate agent candidate satelliteData) = true ->
      exists failed,
        JS.get agentName agentResults = Some failed /\
        failed = failedResult now agentName /\
        AgentResult.detection failed = false /\
        AgentResult.confidence failed = 0 /\
        AgentResult.uncertainty failed = 1 /\
        method (AgentResult.metadata failed) = "failed") /\
  (forall agentName agent t result,
      In (agentName, agent) (agents this) ->
      agentName <> "__proto__" ->
      BaseAgent.evaluate agent candidate satelliteData = JS.Fulfilled t result ->
      JS.lt t (timerDelay (maxProcessingTime (config this))) = true ->
      JS.get agentName agentResults = Some result) /\
  NoDup (JS.keys agentResults) /\
  (forall agentName,
      agentName <> "__proto__" ->
      (In agentName (JS.keys agentResults) <-> In agentName (JS.keys (agents this)))).
Proof.
  intros Hnd agentResults. subst agentResults.
  split; [|split; [|split]].
  - intros agentName agent Hin Hname Hfail.
    exists (failedResult now agentName). split; [|repeat split].
    rewrite (runAgentEvaluations_entry agent Hnd Hin Hname).
    now rewrite (runTask_failed agentName agent Hfail).
  - intros agentName agent t result Hin Hname Hres Hlt.
    rewrite (runAgentEvaluations_entry agent Hnd Hin Hname).
    now rewrite (runTask_answered agentName agent Hres Hlt).
  - apply runAgentEvaluations_NoDup.
  - intros agentName Hname. rewrite runAgentEvaluations_keys. tauto.
Qed.

End Orchestrator.

Lemma failed_agents_are_substituted_witness :
  NoDup (JS.keys (agents Sample.flakyEngine)) /\
  JS.get "A" (fst (runAgentEvaluations Sample.clock Sample.flakyEngine
                     Sample.candidate Sample.gravityOnly))
  = Some (failedResult Sample.clock "A") /\
  JS.get "B" (fst (runAgentEvaluations Sample.clock Sample.flakyEngine
                     Sample.candidate Sample.gravityOnly))
  = Some (failedResult Sample.clock "B") /\
  JS.get "C" (fst (runAgentEvaluations Sample.clock Sample.flakyEngine
                     Sample.candidate Sample.gravityOnly))
  = Some (Sample.verdict "C" true 0.4 0 None).
Proof.
  assert (Hnd : NoDup (JS.keys (agents Sample.flakyEngine))).
  { vm_compute. repeat constructor; simpl; intuition discriminate. }
  destruct (failed_agents_are_substituted Sample.clock Sample.flakyEngine
              Sample.candidate Sample.gravityOnly Hnd) as [Hfailed [Hkept _]].
  split; [exact Hnd|].
  split; [|split].
  - destruct (Hfailed "A" (Sample.agentSettling "A" 1 (JS.Rejected 3)))
      as [failed [Hget [-> _]]];
      [vm_compute; auto | discriminate | reflexivity | exact Hget].
  - destruct (Hfailed "B" (Sample.agentSettling "B" 1 JS.Pending))
      as [failed [Hget [-> _]]];
      [vm_compute; auto | discriminate | reflexivity | exact Hget].
  - apply (Hkept "C" (Sample.agentReporting "C" 1 true 0.4 0) 12%float);
      [vm_compute; auto | discriminate | reflexivity | reflexivity].
Defined.

(** An agent that throws and gets no entry, and an agent that outlasts its
    time limit and keeps its answer: the registry of [Sample.protoEngine]
    holds the agent ['__proto__'], whose promise rejects, yet the result
    object has the one property [C]; under the limit of -1 ms of
    [Sample.negativeLimitEngine] the timer fires after 1 ms, and the agent
    whose promise is settled when it is returned keeps its detection. *)
Lemma some_failed_agents_are_not_substituted :
  (JS.keys (agents Sample.protoEngine) = ["__proto__"; "C"] /\
   agentFails (maxProcessingTime (config Sample.protoEngine))
              (JS.Rejected 3) = true /\
   JS.get "__proto__"
          (fst (runAgentEvaluations Sample.clock Sample.protoEngine
                  Sample.candidate Sample.gravityOnly)) = None /\
   JS.keys (fst (runAgentEvaluations Sample.clock Sample.protoEngine
                   Sample.candidate Sample.gravityOnly)) = ["C"]) /\
  (JS.keys (agents Sample.negativeLimitEngine) = ["A"] /\
   maxProcessingTime (config Sample.negativeLimitEngine) = (-1)%float /\
   JS.gt 0 (maxProcessingTime (config Sample.negativeLimitEngine)) = true /\
   JS.get "A"
          (fst (runAgentEvaluations Sample.clock Sample.negativeLimitEngine
                  Sample.candidate Sample.gravityOnly))
   = Some (Sample.verdict "A" true 0.9 0 None)).
Proof. vm_compute. repeat split; reflexivity. Qed.

(** ** Veto and false-positive suppression *)

Lemma scanPatterns_clear (features : AnomalyFeatures)
      (database : list (string * FPPattern)) (fp : FalsePositiveCheck) :
  scanPatterns features database = JS.Return fp ->
  isKnownFP fp = false ->
  forall patternId pattern,
    In (patternId, pattern) database ->
    exists score,
      calculatePatternMatch features pattern = JS.Return score /\
      JS.gt score 0.7 = false.
Proof.
  induction database as [|[id p] database IH]; simpl; intros Hscan Hfp patternId pattern Hin.
  - contradiction.
  - destruct (calculatePatternMatch features p) as [score|e] eqn:Hscore;
      simpl in Hscan; [|discriminate].
    destruct (JS.gt score 0.7) eqn:Hgt.
    + inversion Hscan; subst. discriminate.
    + destruct Hin as [Heq|Hin].
      * inversion Heq; subst. exists score. now split.
      * now apply (IH Hscan Hfp patternId pattern).
Qed.

(** A positive verdict is only produced at the very end of the pipeline. *)
Lemma detection_only_when_clear (now : string) (this : MultiAgentConsensus)
      (candidate : AnomalyCandidate) (satelliteData : SatelliteData) :
  ConsensusResult.detection
    (resultOf (evaluateWithConsensus now this candidate satelliteData)) = true ->
  let agentResults := fst (runAgentEvaluations now this candidate satelliteData) in
  pass (performDataQualityCheck satelliteData) = true /\
  vetoed (applyVetoLogic this agentResults
            (calculateConsensusMetrics this agentResults)) = false /\
  checkFalsePositiveDatabase this candidate agentResults = JS.Return notKnownFP.
Proof.
  unfold evaluateWithConsensus, resultOf.
  destruct (pass (performDataQualityCheck satelliteData)); simpl; [|discriminate].
  destruct (runAgentEvaluations now this candidate satelliteData)
    as [agentResults called]; simpl.
  destruct (vetoed (applyVetoLogic this agentResults
                      (calculateConsensusMetrics this agentResults)));
    simpl; [discriminate|].
  destruct (checkFalsePositiveDatabase this candidate agentResults)
    as [fp|e] eqn:Hfp; simpl; [|discriminate].
  destruct (isKnownFP fp) eqn:Hknown; simpl; [discriminate|].
  intros _. repeat split.
  f_equal. unfold checkFalsePositiveDatabase in Hfp.
  revert Hfp Hknown. generalize (extractAnomalyFeatures candidate agentResults).
  generalize (falsePositiveDatabase this). clear.
  intros database features. induction database as [|[id p] database IH]; simpl.
  - intros H _. now inversion H.
  - destruct (calculatePatternMatch features p) as [score|e]; simpl; [|discriminate].
    destruct (JS.gt score 0.7); [|exact IH].
    intros H Hk. inversion H; subst. discriminate.
Qed.

(** C1: when a veto rule fires on the agents' results, or a registered
    false-positive pattern scores above 0.7, the returned result has
    [detection = false], whatever the agreement metrics, the confidence and
    the thresholds are. *)
Theorem veto_or_fp_forces_no_detection (now : string) (this : MultiAgentConsensus)
        (candidate : AnomalyCandidate) (satelliteData : SatelliteData) :
  let agentResults := fst (runAgentEvaluations now this candidate satelliteData) in
  vetoed (applyVetoLogic this agentResults
            (calculateConsensusMetrics this agentResults)) = true \/
  fpMatches this candidate agentResults ->
  ConsensusResult.detection
    (resultOf (evaluateWithConsensus now this candidate satelliteData)) = false.
Proof.
  intros agentResults Hfired.
  destruct (ConsensusResult.detection
              (resultOf (evaluateWithConsensus now this candidate satelliteData)))
    eqn:Hdet; [exfalso | reflexivity].
  apply detection_only_when_clear in Hdet.
  destruct Hdet as [_ [Hveto Hfp]]. fold agentResults in Hveto, Hfp.
  destruct Hfired as [Hv | [patternId [pattern [score [Hin [Hscore Hgt]]]]]].
  - congruence.
  - unfold checkFalsePositiveDatabase in Hfp.
    destruct (scanPatterns_clear _ _ Hfp eq_refl _ _ Hin) as [score' [Hscore' Hgt']].
    congruence.
Qed.

Lemma veto_or_fp_forces_no_detection_witness :
  vetoed (applyVetoLogic Sample.vetoedEngine
            (fst (runAgentEvaluations Sample.clock Sample.vetoedEngine
                    Sample.candidate Sample.gravityOnly))
            (calculateConsensusMetrics Sample.vetoedEngine
               (fst (runAgentEvaluations Sample.clock Sample.vetoedEngine
                       Sample.candidate Sample.gravityOnly)))) = true /\
  ConsensusResult.detection
    (resultOf (evaluateWithConsensus Sample.clock Sample.vetoedEngine
                 Sample.candidate Sample.gravityOnly)) = false.
Proof.
  split.
  - vm_compute. reflexivity.
  - apply veto_or_fp_forces_no_detection. left. vm_compute. reflexivity.
Defined.

(** ** The unused consensus threshold *)

Section SameUpToConsensusThreshold.
Variables e1 e2 : MultiAgentConsensus.
Hypothesis same : sameUpToConsensusThreshold e1 e2.

Ltac expose_engines :=
  destruct e1 as [? [? ? ? ? ?] ? ?], e2 as [? [? ? ? ? ?] ? ?];
  destruct same; simpl in *; subst.

Lemma runAgentEvaluations_same now candidate satelliteData :
  runAgentEvaluations now e1 candidate satelliteData
  = runAgentEvaluations now e2 candidate satelliteData.
Proof. expose_engines. reflexivity. Qed.

Lemma calculateConsensusMetrics_same agentResults :
  calculateConsensusMetrics e1 agentResults = calculateConsensusMetrics e2 agentResults.
Proof. expose_engines. reflexivity. Qed.

Lemma applyVetoLogic_same agentResults metrics :
  applyVetoLogic e1 agentResults metrics = applyVetoLogic e2 agentResults metrics.
Proof. expose_engines. reflexivity. Qed.

Lemma checkFalsePositiveDatabase_same candidate agentResults :
  checkFalsePositiveDatabase e1 candidate agentResults
  = checkFalsePositiveDatabase e2 candidate agentResults.
Proof. expose_engines. reflexivity. Qed.

(** C6: two engines whose configurations differ only in
    [consensusThreshold] return the same result for every candidate, data
    snapshot and clock reading, call the same agents and keep the same
    history: no stage of the pipeline reads that setting. *)
Theorem consensusThreshold_is_never_consulted (now : string)
        (candidate : AnomalyCandidate) (satelliteData : SatelliteData) :
  resultOf (evaluateWithConsensus now e1 candidate satelliteData)
  = resultOf (evaluateWithConsensus now e2 candidate satelliteData) /\
  calledOf (evaluateWithConsensus now e1 candidate satelliteData)
  = calledOf (evaluateWithConsensus now e2 candidate satelliteData) /\
  consensusHistory (engineAfter (evaluateWithConsensus now e1 candidate satelliteData))
  = consensusHistory (engineAfter (evaluateWithConsensus now e2 candidate satelliteData)).
Proof.
  unfold evaluateWithConsensus, resultOf, calledOf, engineAfter.
  rewrite runAgentEvaluations_same.
  rewrite (same_confidenceThreshold same).
  pose proof (same_history same) as Hhistory.
  destruct (pass (performDataQualityCheck satelliteData)); simpl; [|auto].
  destruct (runAgentEvaluations now e2 candidate satelliteData)
    as [agentResults called].
  rewrite calculateConsensusMetrics_same, applyVetoLogic_same,
    checkFalsePositiveDatabase_same.
  destruct (vetoed _); simpl; [auto|].
  destruct (checkFalsePositiveDatabase e2 candidate agentResults) as [fp|e];
    simpl; [|auto].
  destruct (isKnownFP fp); simpl; [auto|].
  rewrite Hhistory. auto.
Qed.

End SameUpToConsensusThreshold.

Lemma consensusThreshold_is_never_consulted_witness :
  sameUpToConsensusThreshold (Sample.thresholdEngine 0.85) (Sample.thresholdEngine 0.1) /\
  resultOf (evaluateWithConsensus Sample.clock (Sample.thresholdEngine 0.85)
              Sample.candidate Sample.gravityOnly)
  = resultOf (evaluateWithConsensus Sample.clock (Sample.thresholdEngine 0.1)
                Sample.candidate Sample.gravityOnly).
Proof.
  assert (H : sameUpToConsensusThreshold
                (Sample.thresholdEngine 0.85) (Sample.thresholdEngine 0.1))
    by (constructor; reflexivity).
  split; [exact H|].
  exact (proj1 (@consensusThreshold_is_never_consulted _ _ H Sample.clock
                  Sample.candidate Sample.gravityOnly)).
Defined.

(** ** Agreement metrics *)

(** C2: on the empty detector-result set the source divides 0 by 0:
    [rawConsensus] is NaN, not 0, for every engine, and an engine without
    registered agents reports that NaN as the [consensus] of its result. *)
Theorem rawConsensus_of_no_detectors_is_NaN (this : MultiAgentConsensus) :
  PrimFloat.is_nan (rawConsensus (calculateConsensusMetrics this [])) = true /\
  PrimFloat.is_nan
    (ConsensusResult.consensus
       (resultOf (evaluateWithConsensus Sample.clock Sample.emptyEngine
                    Sample.candidate Sample.gravityOnly))) = true /\
  weightedConsensus (calculateConsensusMetrics this []) = 0.
Proof. repeat split; vm_compute; reflexivity. Qed.

Lemma count_equal_flags (flag : bool) (rest : list AgentResult.t) (agreements : nat) :
  fold_left (fun agreements rj =>
               if Bool.eqb flag (AgentResult.detection rj)
               then S agreements else agreements) rest agreements
  = (agreements
     + List.length (filter (fun b => Bool.eqb flag b)
                           (map AgentResult.detection rest)))%nat.
Proof.
  revert agreements. induction rest as [|r rest IH]; simpl; intros agreements.
  - lia.
  - rewrite IH. destruct (Bool.eqb flag (AgentResult.detection r)); simpl; lia.
Qed.

Lemma triangular_step (t : nat) :
  (S t * (S t - 1) / 2 = t + t * (t - 1) / 2)%nat.
Proof.
  replace (S t * (S t - 1))%nat with (t * 2 + t * (t - 1))%nat
    by (destruct t; simpl; nia).
  rewrite Nat.div_add_l; lia.
Qed.

Lemma pairwiseLoop_counts (results : list AgentResult.t) (agreements : nat) :
  pairwiseLoop results agreements
  = (agreements + agreeingPairs (map AgentResult.detection results))%nat.
Proof.
  revert agreements. induction results as [|r results IH]; intros agreements.
  - simpl. unfold agreeingPairs. simpl. lia.
  - simpl pairwiseLoop. rewrite IH, count_equal_flags.
    unfold agreeingPairs. simpl map.
    destruct (AgentResult.detection r); simpl filter; simpl List.length.
    + rewrite triangular_step.
      rewrite (filter_ext (fun b => Bool.eqb true b) (fun b => b))
        by (now intros []).
      lia.
    + rewrite triangular_step.
      rewrite (filter_ext (fun b => Bool.eqb false b) negb) by (now intros []).
      lia.
Qed.

(** The counter of the nested loops is the number of unordered pairs of
    detectors with equal flags. *)
Lemma calculatePairwiseAgreements_counts_pairs (results : list AgentResult.t) :
  calculatePairwiseAgreements results
  = agreeingPairs (map AgentResult.detection results).
Proof. unfold calculatePairwiseAgreements. now rewrite pairwiseLoop_counts. Qed.

(** The documented example: flags [true, true, false] give one agreement
    out of three pairs. *)
Lemma pairwise_example (this : MultiAgentConsensus) :
  let agentResults :=
    [("A", Sample.verdict "A" true 0.9 0 None);
     ("B", Sample.verdict "B" true 0.8 0 None);
     ("C", Sample.verdict "C" false 0.1 0 None)] in
  calculatePairwiseAgreements (JS.values agentResults) = 1%nat /\
  JS.num 3 * (JS.num 3 - 1) / 2 = 3 /\
  agreementRatio (calculateConsensusMetrics this agentResults) = 1 / 3.
Proof.
  intros agentResults. split; [reflexivity | split; [reflexivity|]].
  unfold calculateConsensusMetrics.
  destruct (fold_left (weighStep this) agentResults (0, 0, []%list)) as [[? ?] ?].
  reflexivity.
Qed.

(** C7: with a single detector (and with none) the source divides 0 by
    [n * (n - 1) / 2 = 0]: the agreement ratio is NaN, not 1.  For a lone
    registered agent that NaN is the [agentAgreement] of the result. *)
Theorem agreementRatio_of_one_detector_is_NaN (this : MultiAgentConsensus)
        (agentName : string) (result : AgentResult.t) :
  PrimFloat.is_nan
    (agreementRatio (calculateConsensusMetrics this [(agentName, result)])) = true /\
  PrimFloat.is_nan (agreementRatio (calculateConsensusMetrics this [])) = true /\
  PrimFloat.is_nan
    (ConsensusResult.agentAgreement
       (resultOf (evaluateWithConsensus Sample.clock Sample.loneEngine
                    Sample.candidate Sample.gravityOnly))) = true.
Proof.
  split; [|split; vm_compute; reflexivity].
  unfold calculateConsensusMetrics.
  destruct (fold_left (weighStep this) [(agentName, result)] (0, 0, []%list))
    as [[? ?] ?].
  reflexivity.
Qed.

(** ** The quality gate *)

(** The gate fails exactly when the weighted score is below 0.75 (the score
    takes finitely many values, none of them NaN). *)
Lemma quality_pass_iff (satelliteData : SatelliteData) :
  pass (performDataQualityCheck satelliteData)
  = negb (JS.lt (overallQualityScore (performDataQualityCheck satelliteData)) 0.75).
Proof.
  destruct satelliteData as [o s t g h e].
  destruct o as [[o1 o2 o3]|], s as [[s1 s2]|], t as [[t1 t2]|], e as [[e1 e2]|];
    unfold performDataQualityCheck, assessTemporalCoverage, assessCloudCover,
      assessResolutionCompatibility, assessRadiometricConsistency, has, present;
    cbn [optical sar thermal elevation sentinel2 sentinel1 landsatThermal srtm
         pass overallQualityScore];
    repeat match goal with
           | |- context [JS.truthy ?v] => destruct (JS.truthy v)
           end;
    vm_compute; reflexivity.
Qed.

(** When the score is below 0.75 the pipeline stops before any agent is
    called; the returned object has no [agentResults] property and the
    engine is left as it was. *)
Lemma quality_failure_short_circuits (now : string) (this : MultiAgentConsensus)
      (candidate : AnomalyCandidate) (satelliteData : SatelliteData) :
  JS.lt (overallQualityScore (performDataQualityCheck satelliteData)) 0.75 = true ->
  let out := evaluateWithConsensus now this candidate satelliteData in
  pass (performDataQualityCheck satelliteData) = false /\
  ConsensusResult.detection (resultOf out) = false /\
  ConsensusResult.confidence (resultOf out) = 0 /\
  ConsensusResult.consensus (resultOf out) = 0 /\
  ConsensusResult.agentAgreement (resultOf out) = 0 /\
  ConsensusResult.agentResults (resultOf out) = None /\
  ConsensusResult.qualityReport (resultOf out)
  = Some (performDataQualityCheck satelliteData) /\
  calledOf out = [] /\
  engineAfter out = this.
Proof.
  intros Hlow out. subst out.
  assert (Hpass : pass (performDataQualityCheck satelliteData) = false)
    by (rewrite quality_pass_iff, Hlow; reflexivity).
  unfold evaluateWithConsensus. rewrite Hpass. simpl.
  repeat split; reflexivity.
Qed.

(** C3: for a snapshot with an optical channel but no Sentinel-2 product
    the score is 0.73; the gate fails, the result is negative with
    confidence 0 and no agent is called, but the returned object carries no
    detector-result map at all: [agentResults] is absent, not empty. *)
Theorem quality_failure_omits_agentResults :
  let out := evaluateWithConsensus Sample.clock Sample.vetoedEngine
               Sample.candidate Sample.cloudyOptical in
  overallQualityScore (performDataQualityCheck Sample.cloudyOptical) = 0.73 /\
  pass (performDataQualityCheck Sample.cloudyOptical) = false /\
  ConsensusResult.detection (resultOf out) = false /\
  ConsensusResult.confidence (resultOf out) = 0 /\
  calledOf out = [] /\
  ConsensusResult.agentResults (resultOf out) = None /\
  ConsensusResult.agentResults (caughtResult Sample.clock) = Some [].
Proof. vm_compute. repeat split. Qed.

(** ** Weighted confidence *)

(** An evaluation that passes the gate, the veto engine and the pattern
    matcher reports the fused confidence, decides by comparing it with
    [confidenceThreshold], and appends the result to the history. *)
Lemma clear_evaluation_decides_by_confidence (now : string)
      (this : MultiAgentConsensus) (candidate : AnomalyCandidate)
      (satelliteData : SatelliteData) :
  let agentResults := fst (runAgentEvaluations now this candidate satelliteData) in
  let metrics := calculateConsensusMetrics this agentResults in
  let out := evaluateWithConsensus now this candidate satelliteData in
  pass (performDataQualityCheck satelliteData) = true ->
  vetoed (applyVetoLogic this agentResults metrics) = false ->
  checkFalsePositiveDatabase this candidate agentResults = JS.Return notKnownFP ->
  ConsensusResult.confidence (resultOf out)
  = calculateWeightedConfidence agentResults (Some (agentWeights metrics)) /\
  ConsensusResult.detection (resultOf out)
  = JS.ge (ConsensusResult.confidence (resultOf out))
          (confidenceThreshold (config this)) /\
  consensusHistory (engineAfter out)
  = (consensusHistory this ++ [resultOf out])%list.
Proof.
  intros agentResults metrics out. subst agentResults metrics out.
  unfold evaluateWithConsensus, resultOf, engineAfter.
  intros -> . simpl.
  destruct (runAgentEvaluations now this candidate satelliteData)
    as [agentResults called]; simpl.
  intros -> ->. simpl. repeat split.
Qed.

(** C5: a single detector of priority 0 that detects with confidence 0.9 and
    uncertainty 0.  Its recorded weight is 0, so the total weight is 0 and
    the weighted agreement is 0; the confidence fusion replaces the weight 0
    by 1, reports confidence 0.9 and decides [detection = true]. *)
Theorem zero_weight_is_replaced_by_one :
  let agentResults :=
    fst (runAgentEvaluations Sample.clock Sample.zeroPriorityEngine
           Sample.candidate Sample.gravityOnly) in
  let metrics := calculateConsensusMetrics Sample.zeroPriorityEngine agentResults in
  let out := evaluateWithConsensus Sample.clock Sample.zeroPriorityEngine
               Sample.candidate Sample.gravityOnly in
  agentWeights metrics = [("A", 0)] /\
  weightedConsensus metrics = 0 /\
  weightOf (Some (agentWeights metrics)) "A" = 1 /\
  ConsensusResult.vetoStatus (resultOf out) = None /\
  ConsensusResult.falsePositiveCheck (resultOf out) = None /\
  ConsensusResult.confidence (resultOf out) = 0.9 /\
  ConsensusResult.detection (resultOf out) = true.
Proof. vm_compute. repeat split. Qed.

(** The replacement only concerns falsy weights: any other recorded weight
    is used as it is. *)
Lemma weightOf_recorded (weights : list (string * float)) (agentName : string)
      (w : float) :
  JS.get agentName weights = Some w ->
  JS.truthy_number w = true ->
  weightOf (Some weights) agentName = w.
Proof. unfold weightOf. intros -> ->. reflexivity. Qed.

(** ** False-positive patterns *)


(** The scan reports the first pattern scoring above 0.7, provided the
    patterns before it could be scored. *)
Lemma scanPatterns_first_match (features : AnomalyFeatures)
      (before after : list (string * FPPattern))
      (id : string) (p : FPPattern) (score : float) :
  Forall (fun entry => exists s,
              calculatePatternMatch features (snd entry) = JS.Return s /\
              JS.gt s 0.7 = false) before ->
  calculatePatternMatch features p = JS.Return score ->
  JS.gt score 0.7 = true ->
  scanPatterns features (before ++ (id, p) :: after)
  = JS.Return
      {| isKnownFP := true;
         matchDetails :=
           Some {| patternId := id;
                   matchScore := score;
                   pattern := p;
                   explanation := generateFPExplanation p features |} |}.
Proof.
  intros Hbefore Hscore Hgt.
  induction before as [|[id' p'] before IH]; simpl.
  - rewrite Hscore. simpl. now rewrite Hgt.
  - inversion Hbefore as [|? ? [s [Hs Hle]] Hrest]; subst. simpl in Hs.
    rewrite Hs. simpl. rewrite Hle. now apply IH.
Qed.

Lemma filter_map_length (A B : Type) (f : A -> B) (p : B -> bool) (l : list A) :
  List.length (filter p (map f l)) = List.length (filter (fun x => p (f x)) l).
Proof.
  induction l as [|x l IH]; simpl; [reflexivity|].
  destruct (p (f x)); simpl; now rewrite IH.
Qed.





(** ** History and statistics *)

(** Whatever the evaluation, no vetoed result enters the history. *)
Lemma history_never_holds_a_veto (now : string) (this : MultiAgentConsensus)
      (candidate : AnomalyCandidate) (satelliteData : SatelliteData) :
  Forall (fun r => isVetoed r = false) (consensusHistory this) ->
  Forall (fun r => isVetoed r = false)
         (consensusHistory
            (engineAfter (evaluateWithConsensus now this candidate satelliteData))).
Proof.
  intros Hclean. unfold evaluateWithConsensus, engineAfter.
  destruct (pass (performDataQualityCheck satelliteData)); simpl; [|assumption].
  destruct (runAgentEvaluations now this candidate satelliteData)
    as [agentResults called].
  destruct (vetoed _); simpl; [assumption|].
  destruct (checkFalsePositiveDatabase this candidate agentResults) as [fp|e];
    simpl; [|assumption].
  destruct (isKnownFP fp); simpl; [assumption|].
  apply Forall_app. split; [assumption|]. repeat constructor.
Qed.

(** Only the result of the final decision is appended. *)
Lemma history_grows_only_on_final_decision (now : string) (this : MultiAgentConsensus)
      (candidate : AnomalyCandidate) (satelliteData : SatelliteData) :
  let out := evaluateWithConsensus now this candidate satelliteData in
  (ConsensusResult.vetoStatus (resultOf out) = None /\
   ConsensusResult.falsePositiveCheck (resultOf out) = None /\
   ConsensusResult.agentResults (resultOf out) <> None /\
   ConsensusResult.qualityReport (resultOf out) <> None /\
   consensusHistory (engineAfter out)
   = (consensusHistory this ++ [resultOf out])%list) \/
  engineAfter out = this.
Proof.
  unfold evaluateWithConsensus, engineAfter, resultOf.
  destruct (pass (performDataQualityCheck satelliteData)); simpl; [|now right].
  destruct (runAgentEvaluations now this candidate satelliteData)
    as [agentResults called].
  destruct (vetoed _); simpl; [now right|].
  destruct (checkFalsePositiveDatabase this candidate agentResults) as [fp|e];
    simpl; [|now right].
  destruct (isKnownFP fp); simpl; [now right|].
  left. repeat split; discriminate.
Qed.

(** C10: an engine evaluates one candidate that is vetoed and then one that
    is detected.  The vetoed result is returned but not appended: the
    history is still empty and there are no statistics; after the second
    evaluation the statistics count one evaluation and a veto rate of 0,
    although one of the two evaluations was vetoed. *)
Theorem vetoed_results_are_not_recorded :
  let first := evaluateWithConsensus Sample.clock Sample.depthSensitiveEngine
                 Sample.deepCandidate Sample.gravityOnly in
  let second := evaluateWithConsensus Sample.clock (engineAfter first)
                  Sample.candidate Sample.gravityOnly in
  isVetoed (resultOf first) = true /\
  consensusHistory (engineAfter first) = [] /\
  getConsensusStatistics (engineAfter first) = None /\
  isVetoed (resultOf second) = false /\
  consensusHistory (engineAfter second) = [resultOf second] /\
  exists stats,
    getConsensusStatistics (engineAfter second) = Some stats /\
    totalEvaluations stats = 1%nat /\
    vetoRate stats = 0.
Proof. vm_compute. repeat split. eexists. repeat split. Qed.

(** ** Construction *)

Lemma registerAgents_keep_settings (registered : list BaseAgent.t) :
  forall this,
    config (fold_left registerAgent registered this) = config this /\
    consensusHistory (fold_left registerAgent registered this) = consensusHistory this /\
    falsePositiveDatabase (fold_left registerAgent registered this)
    = falsePositiveDatabase this.
Proof.
  induction registered as [|agent registered IH]; simpl; intros this; [auto|].
  destruct (IH (registerAgent this agent)) as [-> [-> ->]]. auto.
Qed.

(** A configuration with a consensus threshold of 5, a confidence threshold
    of -1, an infinite time limit and a veto switch supplied as [undefined]
    is not well-formed, yet the constructor returns an engine for it, and
    that engine evaluates.  The timer for the infinite limit fires after
    1 ms, so the agent that answers after 12 ms is replaced by the failed
    result; the confidence is 0, and with the threshold of -1 the engine
    reports a detection. *)
Lemma constructor_accepts_malformed_config :
  validConfig (spread defaultConfig Sample.malformedConfig) = false /\
  (forall e, constructor Sample.malformedConfig <> JS.Throw e) /\
  exists engine,
    constructor Sample.malformedConfig = JS.Return engine /\
    consensusThreshold (config engine) = 5 /\
    vetoEnabled (config engine) = false /\
    confidenceThreshold (config engine) = (-1)%float /\
    maxProcessingTime (config engine) = infinity /\
    let out := evaluateWithConsensus Sample.clock
                 (registerAgent engine (Sample.agentReporting "A" 1 true 0.9 0))
                 Sample.candidate Sample.gravityOnly in
    ConsensusResult.agentResults (resultOf out)
    = Some [("A", failedResult Sample.clock "A")] /\
    ConsensusResult.confidence (resultOf out) = 0 /\
    ConsensusResult.detection (resultOf out) = true.
Proof.
  split; [vm_compute; reflexivity|].
  split; [intros e; discriminate|].
  eexists. split; [reflexivity|]. vm_compute. repeat split.
Qed.

(** C9 (as the source has it): construction performs no validation and never
    raises.  For every partial configuration it returns an engine without
    agents, history or patterns, whose settings are the supplied values
    where a property is supplied, whatever they are, and the defaults 0.85,
    true, 0.7, 300000 and true where it is absent.  Such an engine runs
    evaluations: with whatever agents are registered on it, an evaluation
    returns a result with the quality report of the snapshot and the time
    of the evaluation, and it reports a detection exactly when the snapshot
    passes the quality gate, no veto was cast and the confidence is at
    least the confidence threshold as supplied. *)
Theorem constructor_never_raises (c : PartialConfig) :
  exists engine,
    constructor c = JS.Return engine /\
    agents engine = [] /\
    consensusHistory engine = [] /\
    falsePositiveDatabase engine = [] /\
    consensusThreshold (config engine) = numberSetting (p_consensusThreshold c) 0.85 /\
    vetoEnabled (config engine) = flagSetting (p_vetoEnabled c) true /\
    confidenceThreshold (config engine) = numberSetting (p_confidenceThreshold c) 0.7 /\
    maxProcessingTime (config engine) = numberSetting (p_maxProcessingTime c) 300000 /\
    parallelExecution (config engine) = flagSetting (p_parallelExecution c) true /\
    forall (now : string) (registered : list BaseAgent.t)
           (candidate : AnomalyCandidate) (satelliteData : SatelliteData),
      let result :=
        resultOf (evaluateWithConsensus now (fold_left registerAgent registered engine)
                                        candidate satelliteData) in
      ConsensusResult.qualityReport result
      = Some (performDataQualityCheck satelliteData) /\
      ConsensusResult.timestamp result = now /\
      ConsensusResult.detection result
      = pass (performDataQualityCheck satelliteData)
        && negb (isVetoed result)
        && JS.ge (ConsensusResult.confidence result)
                 (numberSetting (p_confidenceThreshold c) 0.7).
Proof.
  eexists. split; [reflexivity|]. do 8 (split; [reflexivity|]).
  intros now registered candidate satelliteData.
  set (fresh := {| agents := []; config := spread defaultConfig c;
                   consensusHistory := []; falsePositiveDatabase := [] |}).
  destruct (registerAgents_keep_settings registered fresh) as [Hconfig [_ Hdb]].
  set (this := fold_left registerAgent registered fresh) in *.
  unfold evaluateWithConsensus, resultOf, isVetoed.
  destruct (pass (performDataQualityCheck satelliteData)); simpl;
    [|repeat split].
  destruct (runAgentEvaluations now this candidate satelliteData)
    as [agentResults called]; simpl.
  destruct (vetoed (applyVetoLogic this agentResults
                      (calculateConsensusMetrics this agentResults))) eqn:Hveto;
    simpl; [rewrite Hveto; repeat split|].
  unfold checkFalsePositiveDatabase. rewrite Hdb. simpl.
  rewrite Hconfig. repeat split.
Qed.

(** * Further properties of the engine *)

(** ** Invariants of reachable engines *)

Lemma evaluate_keeps_registry (now : string) (this : MultiAgentConsensus)
      (candidate : AnomalyCandidate) (satelliteData : SatelliteData) :
  let after := engineAfter (evaluateWithConsensus now this candidate satelliteData) in
  agents after = agents this /\
  config after = config this /\
  falsePositiveDatabase after = falsePositiveDatabase this.
Proof.
  unfold evaluateWithConsensus, engineAfter.
  destruct (pass (performDataQualityCheck satelliteData)); simpl; [|auto].
  destruct (runAgentEvaluations now this candidate satelliteData)
    as [agentResults called].
  destruct (vetoed _); simpl; [auto|].
  destruct (checkFalsePositiveDatabase this candidate agentResults) as [fp|e];
    simpl; [|auto].
  destruct (isKnownFP fp); simpl; auto.
Qed.

Lemma reachable_NoDup (this : MultiAgentConsensus) :
  reachable this -> NoDup (JS.keys (agents this)).
Proof.
  induction 1 as [c this Hc|this agent _ IH|this agentName _ IH|now this cand sd _ IH].
  - now apply (constructor_NoDup Hc).
  - now apply registerAgent_NoDup.
  - now apply removeAgent_NoDup.
  - now rewrite (proj1 (evaluate_keeps_registry now this cand sd)).
Qed.

Lemma reachable_database_empty (this : MultiAgentConsensus) :
  reachable this -> falsePositiveDatabase this = [].
Proof.
  induction 1 as [c this Hc|this agent _ IH|this agentName _ IH|now this cand sd _ IH].
  - inversion Hc; subst. reflexivity.
  - exact IH.
  - exact IH.
  - now rewrite (proj2 (proj2 (evaluate_keeps_registry now this cand sd))).
Qed.

(** Every engine of the empty registry is reachable; registering adds to it. *)
Lemma reachable_sample (registered : list BaseAgent.t) :
  reachable (Sample.engineWith defaultConfig registered []).
Proof.
  unfold Sample.engineWith.
  assert (Hstart : reachable {| agents := []; config := defaultConfig;
                                consensusHistory := [];
                                falsePositiveDatabase := [] |}).
  { apply (@reach_constructor
             {| p_consensusThreshold := absent; p_vetoEnabled := absent;
                p_confidenceThreshold := absent; p_maxProcessingTime := absent;
                p_parallelExecution := absent |} _).
    reflexivity. }
  revert Hstart.
  generalize {| agents := []; config := defaultConfig; consensusHistory := [];
                falsePositiveDatabase := [] |}.
  induction registered as [|a registered IH]; simpl; intros start Hstart.
  - exact Hstart.
  - apply IH. now apply reach_registerAgent.
Defined.

(** ** The agent registry *)

(** X1: after [registerAgent(agent)] the registry maps the agent's name to
    that agent, and every other name is looked up as before. *)
Theorem registerAgent_then_lookup (this : MultiAgentConsensus) (agent : BaseAgent.t) :
  JS.get (BaseAgent.name agent) (agents (registerAgent this agent)) = Some agent /\
  forall other,
    other <> BaseAgent.name agent ->
    JS.get other (agents (registerAgent this agent)) = JS.get other (agents this).
Proof.
  split.
  - apply get_set_same.
  - intros other Hne. now apply get_set_other.
Qed.

(** X2: registering an agent under a name that is already registered does not
    raise and does not grow the registry: the names, their order and their
    number stay as they were, and the name now denotes the new agent. *)
Theorem registerAgent_same_name_replaces (this : MultiAgentConsensus)
        (agent : BaseAgent.t) :
  In (BaseAgent.name agent) (JS.keys (agents this)) ->
  JS.keys (agents (registerAgent this agent)) = JS.keys (agents this) /\
  List.length (getAgents (registerAgent this agent)) = List.length (getAgents this) /\
  JS.get (BaseAgent.name agent) (agents (registerAgent this agent)) = Some agent.
Proof.
  intros Hin.
  assert (Hkeys : JS.keys (agents (registerAgent this agent)) = JS.keys (agents this)).
  { simpl. rewrite keys_set.
    replace (existsb (String.eqb (BaseAgent.name agent)) (JS.keys (agents this)))
      with true; [reflexivity|].
    symmetry. apply existsb_exists. exists (BaseAgent.name agent).
    split; [assumption | apply String.eqb_refl]. }
  split; [exact Hkeys | split].
  - unfold getAgents, JS.values. rewrite !length_map.
    rewrite <- (length_map fst (agents (registerAgent this agent))).
    rewrite <- (length_map fst (agents this)).
    unfold JS.keys in Hkeys. now rewrite Hkeys.
  - apply get_set_same.
Qed.

Lemma registerAgent_same_name_replaces_witness :
  In "A" (JS.keys (agents Sample.loneEngine)) /\
  JS.keys (agents (registerAgent Sample.loneEngine
                     (Sample.agentReporting "A" 5 false 0.1 0.5)))
  = ["A"].
Proof.
  assert (Hin : In (BaseAgent.name (Sample.agentReporting "A" 5 false 0.1 0.5))
                   (JS.keys (agents Sample.loneEngine))) by (simpl; auto).
  split; [exact Hin|].
  exact (proj1 (registerAgent_same_name_replaces Sample.loneEngine
                  (Sample.agentReporting "A" 5 false 0.1 0.5) Hin)).
Defined.

(** X3: on an engine built through the public methods, [removeAgent(name)]
    leaves no agent under that name and does not touch the other names;
    removing a name that is not registered changes nothing. *)
Theorem removeAgent_then_lookup (this : MultiAgentConsensus) (agentName : string) :
  reachable this ->
  JS.get agentName (agents (removeAgent this agentName)) = None /\
  (forall other,
      other <> agentName ->
      JS.get other (agents (removeAgent this agentName)) = JS.get other (agents this)) /\
  (JS.get agentName (agents this) = None ->
   agents (removeAgent this agentName) = agents this).
Proof.
  intros Hreach. pose proof (reachable_NoDup Hreach) as Hnd.
  split; [|split].
  - now apply get_delete_same.
  - intros other Hne. now apply get_delete_other.
  - intros Hnone. simpl. apply delete_absent. now apply get_None_not_In.
Qed.

Lemma removeAgent_then_lookup_witness :
  reachable Sample.flakyEngine /\
  JS.get "B" (agents (removeAgent Sample.flakyEngine "B")) = None.
Proof.
  assert (H : reachable Sample.flakyEngine) by apply reachable_sample.
  split; [exact H|].
  exact (proj1 (removeAgent_then_lookup "B" H)).
Defined.

(** X4: on every engine built through the public methods the registered
    names are pairwise distinct and the false-positive database is empty:
    no public method adds a pattern. *)
Theorem reachable_engine_invariants (this : MultiAgentConsensus) :
  reachable this ->
  NoDup (JS.keys (agents this)) /\ falsePositiveDatabase this = [].
Proof.
  intros H. split; [now apply reachable_NoDup | now apply reachable_database_empty].
Qed.

Lemma reachable_engine_invariants_witness :
  reachable Sample.vetoedEngine /\
  NoDup (JS.keys (agents Sample.vetoedEngine)) /\
  falsePositiveDatabase Sample.vetoedEngine = [].
Proof.
  assert (H : reachable Sample.vetoedEngine) by apply reachable_sample.
  split; [exact H | exact (reachable_engine_invariants H)].
Defined.

Lemma evaluate_appends_final_decisions (now : string) (this : MultiAgentConsensus)
      (candidate : AnomalyCandidate) (satelliteData : SatelliteData) :
  Forall finalDecision (consensusHistory this) ->
  Forall finalDecision
         (consensusHistory
            (engineAfter (evaluateWithConsensus now this candidate satelliteData))).
Proof.
  intros Hold. unfold evaluateWithConsensus, engineAfter.
  destruct (pass (performDataQualityCheck satelliteData)) eqn:Hpass;
    simpl; [|assumption].
  destruct (runAgentEvaluations now this candidate satelliteData)
    as [agentResults called].
  destruct (vetoed _); simpl; [assumption|].
  destruct (checkFalsePositiveDatabase this candidate agentResults) as [fp|e];
    simpl; [|assumption].
  destruct (isKnownFP fp); simpl; [assumption|].
  apply Forall_app. split; [assumption|].
  constructor; [|constructor].
  unfold finalDecision; simpl. repeat split; eauto.
Qed.

Lemma finalDecision_not_vetoed (r : ConsensusResult.t) :
  finalDecision r -> isVetoed r = false.
Proof. intros [Hv _]. unfold isVetoed. now rewrite Hv. Qed.

(** X5: the history of an engine built through the public methods holds
    final decisions only: every recorded result has no veto status and no
    false-positive record, carries a detector-result map and a passing
    quality report.  The statistics therefore never count a veto. *)
Theorem history_holds_only_final_decisions (this : MultiAgentConsensus) :
  reachable this ->
  Forall finalDecision (consensusHistory this) /\
  List.length (filter isVetoed (consensusHistory this)) = 0%nat.
Proof.
  intros Hreach.
  assert (Hfinal : Forall finalDecision (consensusHistory this)).
  { induction Hreach as [c this Hc|this agent _ IH|this agentName _ IH
                         |now this cand sd _ IH].
    - inversion Hc; subst. constructor.
    - exact IH.
    - exact IH.
    - now apply evaluate_appends_final_decisions. }
  split; [exact Hfinal|].
  induction Hfinal as [|r history Hr _ IH]; simpl; [reflexivity|].
  now rewrite (finalDecision_not_vetoed Hr).
Qed.

Lemma history_holds_only_final_decisions_witness :
  let after :=
    engineAfter (evaluateWithConsensus Sample.clock Sample.depthSensitiveEngine
                   Sample.candidate Sample.gravityOnly) in
  reachable after /\
  List.length (consensusHistory after) = 1%nat /\
  List.length (filter isVetoed (consensusHistory after)) = 0%nat.
Proof.
  intros after.
  assert (H : reachable after)
    by (apply reach_evaluate; apply reachable_sample).
  split; [exact H|]. split; [reflexivity|].
  exact (proj2 (history_holds_only_final_decisions H)).
Defined.

(** X6: an engine built through the public methods never reports a known
    false positive and never reaches the [catch] clause: every result
    carries the quality report of its snapshot and no false-positive
    record, and lacks the detector-result map exactly when the quality
    gate failed. *)
Theorem reachable_engine_never_matches_a_pattern (now : string)
        (this : MultiAgentConsensus) (candidate : AnomalyCandidate)
        (satelliteData : SatelliteData) :
  reachable this ->
  let result := resultOf (evaluateWithConsensus now this candidate satelliteData) in
  ConsensusResult.falsePositiveCheck result = None /\
  ConsensusResult.qualityReport result = Some (performDataQualityCheck satelliteData) /\
  (ConsensusResult.agentResults result = None <->
   pass (performDataQualityCheck satelliteData) = false).
Proof.
  intros Hreach. pose proof (reachable_database_empty Hreach) as Hdb.
  unfold evaluateWithConsensus, resultOf, checkFalsePositiveDatabase.
  rewrite Hdb.
  destruct (pass (performDataQualityCheck satelliteData)); simpl.
  - destruct (runAgentEvaluations now this candidate satelliteData)
      as [agentResults called].
    destruct (vetoed _); simpl; repeat split; try discriminate; auto.
  - repeat split; auto.
Qed.

Lemma reachable_engine_never_matches_a_pattern_witness :
  reachable Sample.loneEngine /\
  ConsensusResult.falsePositiveCheck
    (resultOf (evaluateWithConsensus Sample.clock Sample.loneEngine
                 Sample.candidate Sample.gravityOnly)) = None.
Proof.
  assert (H : reachable Sample.loneEngine) by apply reachable_sample.
  split; [exact H|].
  exact (proj1 (reachable_engine_never_matches_a_pattern Sample.clock
                  Sample.candidate Sample.gravityOnly H)).
Defined.

(** ** The quality gate, case by case *)

Ltac quality_cases satelliteData :=
  destruct satelliteData as [o s t g h e];
  destruct o as [[o1 o2 o3]|], s as [[s1 s2]|], t as [[t1 t2]|], e as [[e1 e2]|];
  unfold performDataQualityCheck, assessTemporalCoverage, assessCloudCover,
    assessResolutionCompatibility, assessRadiometricConsistency, has, present;
  cbn [optical sar thermal elevation sentinel2 sentinel1 landsatThermal srtm
       pass overallQualityScore issues recommendations];
  repeat match goal with
         | |- context [JS.truthy ?v] => destruct (JS.truthy v)
         end;
  vm_compute; try reflexivity.

(** X7: the quality gate fails exactly when the snapshot has an optical
    channel but neither a Sentinel-2, nor a Sentinel-1, nor a Landsat thermal
    product; every other snapshot, the empty one included, passes. *)
Theorem quality_gate_fails_exactly_on_bare_optical (satelliteData : SatelliteData) :
  pass (performDataQualityCheck satelliteData)
  = negb (present (optical satelliteData)
          && negb (has (optical satelliteData) sentinel2)
          && negb (has (sar satelliteData) sentinel1)
          && negb (has (thermal satelliteData) landsatThermal)).
Proof. quality_cases satelliteData. Qed.

(** X8: the only issue the quality report can raise is insufficient
    temporal coverage, and it raises it exactly when neither a Sentinel-2
    nor a Sentinel-1 product is present; the cloud, resolution and
    radiometric issues are never raised.  Each issue comes with its
    recommendation. *)
Theorem quality_report_only_flags_temporal_coverage (satelliteData : SatelliteData) :
  let report := performDataQualityCheck satelliteData in
  if has (optical satelliteData) sentinel2 || has (sar satelliteData) sentinel1
  then issues report = [] /\ recommendations report = []
  else issues report = ["Insufficient temporal coverage"] /\
       recommendations report = ["Extend date range or use seasonal composite"].
Proof. quality_cases satelliteData; split; reflexivity. Qed.

(** ** What evaluation leaves alone *)

(** X11: an evaluation never changes the registry, the configuration or the
    pattern database, and the history afterwards is the history before,
    followed by at most the returned result. *)
Theorem evaluation_only_appends_to_history (now : string)
        (this : MultiAgentConsensus) (candidate : AnomalyCandidate)
        (satelliteData : SatelliteData) :
  let out := evaluateWithConsensus now this candidate satelliteData in
  agents (engineAfter out) = agents this /\
  config (engineAfter out) = config this /\
  falsePositiveDatabase (engineAfter out) = falsePositiveDatabase this /\
  (consensusHistory (engineAfter out) = consensusHistory this \/
   consensusHistory (engineAfter out)
   = (consensusHistory this ++ [resultOf out])%list).
Proof.
  intros out. subst out.
  destruct (evaluate_keeps_registry now this candidate satelliteData)
    as [Ha [Hc Hd]].
  repeat split; try assumption.
  destruct (history_grows_only_on_final_decision now this candidate satelliteData)
    as [[_ [_ [_ [_ Happ]]]] | Hsame].
  - now right.
  - left. now rewrite Hsame.
Qed.

(** X12: a positive result is always a recorded final decision: when the
    returned [detection] is true, the result is the last entry of the
    history, its confidence is at least [confidenceThreshold], and it
    carries neither a veto status nor a false-positive record. *)
Theorem positive_results_are_recorded (now : string)
        (this : MultiAgentConsensus) (candidate : AnomalyCandidate)
        (satelliteData : SatelliteData) :
  let out := evaluateWithConsensus now this candidate satelliteData in
  ConsensusResult.detection (resultOf out) = true ->
  consensusHistory (engineAfter out) = (consensusHistory this ++ [resultOf out])%list /\
  JS.ge (ConsensusResult.confidence (resultOf out))
        (confidenceThreshold (config this)) = true /\
  ConsensusResult.vetoStatus (resultOf out) = None /\
  ConsensusResult.falsePositiveCheck (resultOf out) = None.
Proof.
  intros out Hdet. subst out.
  pose proof (@detection_only_when_clear _ _ _ _ Hdet) as [Hpass [Hveto Hfp]].
  pose proof (@clear_evaluation_decides_by_confidence
                now this candidate satelliteData Hpass Hveto Hfp)
    as [Hconf [Hdecide Hhist]].
  split; [exact Hhist|]. split; [now rewrite <- Hdecide|].
  revert Hpass Hveto Hfp. clear.
  unfold evaluateWithConsensus, resultOf. intros -> .  simpl.
  destruct (runAgentEvaluations now this candidate satelliteData)
    as [agentResults called]; simpl.
  intros -> ->. simpl. split; reflexivity.
Qed.

Lemma positive_results_are_recorded_witness :
  let out := evaluateWithConsensus Sample.clock Sample.loneEngine
               Sample.candidate Sample.gravityOnly in
  ConsensusResult.detection (resultOf out) = true /\
  consensusHistory (engineAfter out) = [resultOf out].
Proof.
  intros out.
  assert (H : ConsensusResult.detection (resultOf out) = true)
    by (vm_compute; reflexivity).
  split; [exact H|].
  exact (proj1 (positive_results_are_recorded Sample.clock Sample.loneEngine
                  Sample.candidate Sample.gravityOnly H)).
Defined.


(** ** Veto rules *)

Lemma firstVeto_fires (agentResults : list (string * AgentResult.t))
      (conditions : list VetoCondition) (condition : VetoCondition) :
  In condition conditions ->
  checkVetoCondition agentResults condition = true ->
  vetoed (firstVeto agentResults conditions) = true.
Proof.
  induction conditions as [|c conditions IH]; simpl; intros Hin Hfires.
  - contradiction.
  - destruct (checkVetoCondition agentResults c) eqn:Hc; [reflexivity|].
    destruct Hin as [Heq|Hin]; [subst; congruence | now apply IH].
Qed.

Lemma physics_rules_fire (agentResults : list (string * AgentResult.t)) :
  existsb physicsFails (JS.values agentResults) = true \/
  existsb residualHigh (JS.values agentResults) = true ->
  vetoed (firstVeto agentResults vetoConditions) = true.
Proof.
  intros [Hfire|Hfire].
  - apply (@firstVeto_fires agentResults vetoConditions
             {| primaryCondition := "physics_violation";
                secondaryCondition := None;
                vc_vetoReason :=
                  "Anomaly violates physics constraints for this geological province";
                vc_vetoingAgent := "PhysicsValidationAgent" |}).
    + simpl. auto.
    + unfold checkVetoCondition, runCheck. simpl.
      change (existsb physicsFails (JS.values agentResults) = true) in Hfire.
      unfold physicsFails in Hfire. now rewrite Hfire.
  - apply (@firstVeto_fires agentResults vetoConditions
             {| primaryCondition := "physics_residual_high";
                secondaryCondition := None;
                vc_vetoReason := "Model violates physical laws at this location";
                vc_vetoingAgent := "QuantumInversionAgent" |}).
    + simpl. auto 6.
    + unfold checkVetoCondition, runCheck. simpl.
      unfold residualHigh in Hfire. now rewrite Hfire.
Qed.

(** X13: with the veto enabled, a registered agent that is not named
    ['__proto__'] and that answers before the timer fires with a failed
    physics validation, or with a residual score above 1.0, makes every
    evaluation on a passing snapshot a vetoed one: the result carries
    [vetoed = true], has no detection and is not recorded, whatever the
    other agents report. *)
Theorem physics_violation_always_vetoes (now : string) (this : MultiAgentConsensus)
        (candidate : AnomalyCandidate) (satelliteData : SatelliteData)
        (agentName : string) (agent : BaseAgent.t)
        (t : float) (answer : AgentResult.t) :
  NoDup (JS.keys (agents this)) ->
  vetoEnabled (config this) = true ->
  pass (performDataQualityCheck satelliteData) = true ->
  In (agentName, agent) (agents this) ->
  agentName <> "__proto__" ->
  BaseAgent.evaluate agent candidate satelliteData = JS.Fulfilled t answer ->
  JS.lt t (timerDelay (maxProcessingTime (config this))) = true ->
  physicsFails answer = true \/ residualHigh answer = true ->
  let out := evaluateWithConsensus now this candidate satelliteData in
  (exists status,
      ConsensusResult.vetoStatus (resultOf out) = Some status /\
      vetoed status = true) /\
  ConsensusResult.detection (resultOf out) = false /\
  engineAfter out = this.
Proof.
  intros Hnd Henabled Hpass Hin Hname Hanswer Hintime Hphysics out. subst out.
  pose proof (@runAgentEvaluations_entry now this candidate satelliteData
                agentName agent Hnd Hin Hname) as Hget.
  rewrite (@runTask_answered now this candidate satelliteData
             agentName agent t answer Hanswer Hintime) in Hget.
  unfold evaluateWithConsensus, resultOf, engineAfter. rewrite Hpass. simpl.
  destruct (runAgentEvaluations now this candidate satelliteData)
    as [agentResults called]. simpl in Hget.
  assert (Hmember : In answer (JS.values agentResults)).
  { apply get_Some_In in Hget. unfold JS.values.
    change answer with (snd (agentName, answer)). now apply in_map. }
  assert (Hveto : vetoed (applyVetoLogic this agentResults
                            (calculateConsensusMetrics this agentResults)) = true).
  { unfold applyVetoLogic. rewrite Henabled. simpl.
    apply physics_rules_fire.
    destruct Hphysics as [H|H]; [left|right];
      apply existsb_exists; exists answer; now split. }
  rewrite Hveto. simpl. split; [|split; reflexivity].
  eexists. split; [reflexivity | exact Hveto].
Qed.

Lemma physics_violation_always_vetoes_witness :
  let out := evaluateWithConsensus Sample.clock Sample.vetoedEngine
               Sample.candidate Sample.gravityOnly in
  NoDup (JS.keys (agents Sample.vetoedEngine)) /\
  physicsFails
    (Sample.verdict "QuantumInversionAgent" true 0.85 0
       (Some {| passesPhysics := false;
                violations := ["Density-depth relationship violation"];
                residualScore := 1.2 |})) = true /\
  ConsensusResult.detection (resultOf out) = false /\
  engineAfter out = Sample.vetoedEngine.
Proof.
  intros out.
  assert (Hnd : NoDup (JS.keys (agents Sample.vetoedEngine)))
    by (apply reachable_NoDup, reachable_sample).
  split; [exact Hnd|]. split; [reflexivity|].
  refine (proj2 (@physics_violation_always_vetoes Sample.clock Sample.vetoedEngine
                   Sample.candidate Sample.gravityOnly
                   "QuantumInversionAgent" Sample.violatingAgent 12 _
                   Hnd _ _ _ _ _ _ _)).
  - reflexivity.
  - reflexivity.
  - vm_compute. auto.
  - discriminate.
  - reflexivity.
  - reflexivity.
  - left. reflexivity.
Defined.

Lemma failed_results_satisfy_no_rule (now : string)
      (agentResults : list (string * AgentResult.t)) :
  Forall (fun entry => snd entry = failedResult now (fst entry)) agentResults ->
  firstVeto agentResults vetoConditions = notVetoed.
Proof.
  intros Hfailed.
  assert (Hnone : forall test : AgentResult.t -> bool,
             (forall n, test (failedResult now n) = false) ->
             existsb test (JS.values agentResults) = false).
  { intros test Htest. induction Hfailed as [|[n r] l Hr _ IH]; simpl; [reflexivity|].
    simpl in Hr. subst r. now rewrite Htest, IH. }
  unfold vetoConditions, firstVeto, checkVetoCondition, runCheck. simpl.
  rewrite !Hnone; try reflexivity; intros n; unfold nameIncludes, dataHas; simpl;
    now rewrite ?andb_false_r.
Qed.

(** X14: when every registered agent throws or is timed out, the evaluation
    is not vetoed: every property of the result object is the synthetic
    result of its agent, and these satisfy none of the veto rules. *)
Theorem failed_agents_never_veto (now : string) (this : MultiAgentConsensus)
        (candidate : AnomalyCandidate) (satelliteData : SatelliteData) :
  NoDup (JS.keys (agents this)) ->
  (forall agentName agent,
      In (agentName, agent) (agents this) ->
      agentFails (maxProcessingTime (config this))
                 (BaseAgent.evaluate agent candidate satelliteData) = true) ->
  let agentResults := fst (runAgentEvaluations now this candidate satelliteData) in
  Forall (fun entry => snd entry = failedResult now (fst entry)) agentResults /\
  applyVetoLogic this agentResults (calculateConsensusMetrics this agentResults)
  = notVetoed /\
  ConsensusResult.vetoStatus
    (resultOf (evaluateWithConsensus now this candidate satelliteData)) = None.
Proof.
  intros Hnd Hall agentResults.
  assert (Hfailed : Forall (fun entry => snd entry = failedResult now (fst entry))
                           agentResults).
  { apply Forall_forall. intros [n r] Hin. simpl.
    destruct (@runAgentEvaluations_In now this candidate satelliteData n r Hnd Hin)
      as [agent [Hreg [_ ->]]].
    now rewrite (@runTask_failed now this candidate satelliteData n agent
                   (Hall n agent Hreg)). }
  assert (Hclear : forall metrics, applyVetoLogic this agentResults metrics = notVetoed).
  { intros metrics. unfold applyVetoLogic.
    destruct (negb (vetoEnabled (config this))); [reflexivity|].
    now apply (@failed_results_satisfy_no_rule now). }
  split; [exact Hfailed|]. split; [apply Hclear|].
  subst agentResults. unfold evaluateWithConsensus, resultOf.
  destruct (pass (performDataQualityCheck satelliteData)); simpl; [|reflexivity].
  destruct (runAgentEvaluations now this candidate satelliteData)
    as [agentResults called]. simpl in Hclear.
  rewrite Hclear. simpl.
  destruct (checkFalsePositiveDatabase this candidate _) as [fp|e];
    simpl; [|reflexivity].
  destruct (isKnownFP fp); reflexivity.
Qed.

Lemma failed_agents_never_veto_witness :
  let this :=
    Sample.engineWith defaultConfig
      [Sample.agentSettling "SeepageAgent" 1 (JS.Rejected 3);
       Sample.agentSettling "GravityAgent" 2 JS.Pending] [] in
  NoDup (JS.keys (agents this)) /\
  ConsensusResult.vetoStatus
    (resultOf (evaluateWithConsensus Sample.clock this
                 Sample.candidate Sample.gravityOnly)) = None.
Proof.
  intros this.
  assert (Hnd : NoDup (JS.keys (agents this)))
    by (apply reachable_NoDup, reachable_sample).
  split; [exact Hnd|].
  refine (proj2 (proj2 (@failed_agents_never_veto Sample.clock this
                          Sample.candidate Sample.gravityOnly Hnd _))).
  intros agentName agent [H|[H|[]]]; inversion H; subst; reflexivity.
Defined.

(** ** Consensus metrics, continued *)

Lemma weighStep_weights (this : MultiAgentConsensus)
      (l : list (string * AgentResult.t)) :
  forall st : float * float * list (string * float),
    snd (fold_left (weighStep this) l st)
    = Obj.assignAll
        (map (fun entry =>
                (fst entry,
                 match JS.get (fst entry) (agents this) with
                 | Some agent => md_priority (BaseAgent.getMetadata agent)
                 | None => 1
                 end)) l)
        (snd st).
Proof.
  induction l as [|[n r] l IH]; intros [[weightedSum totalWeight] weights];
    [reflexivity|].
  cbn [map fold_left]. rewrite IH. reflexivity.
Qed.

(** X15: the weights recorded by the consensus calculation for the results
    of an orchestrator run are the priorities of the registered agents: the
    weights object has one property for every registered agent that is not
    named ['__proto__'], holding that agent's priority, and no other. *)
Theorem recorded_weights_are_priorities (now : string) (this : MultiAgentConsensus)
        (candidate : AnomalyCandidate) (satelliteData : SatelliteData) :
  NoDup (JS.keys (agents this)) ->
  let metrics :=
    calculateConsensusMetrics this
      (fst (runAgentEvaluations now this candidate satelliteData)) in
  (forall agentName agent,
      In (agentName, agent) (agents this) ->
      agentName <> "__proto__" ->
      JS.get agentName (agentWeights metrics) = Some (BaseAgent.priority agent)) /\
  (forall agentName,
      In agentName (JS.keys (agentWeights metrics))
      <-> In agentName (JS.keys (agents this)) /\ agentName <> "__proto__") /\
  NoDup (JS.keys (agentWeights metrics)).
Proof.
  intros Hnd metrics.
  pose proof (@runAgentEvaluations_NoDup now this candidate satelliteData) as Hresults.
  pose proof (@runAgentEvaluations_keys now this candidate satelliteData) as Hkeys.
  pose proof (@runAgentEvaluations_entry now this candidate satelliteData) as Hentry.
  assert (Hweights :
            agentWeights metrics
            = Obj.assignAll
                (map (fun entry =>
                        (fst entry,
                         match JS.get (fst entry) (agents this) with
                         | Some agent => md_priority (BaseAgent.getMetadata agent)
                         | None => 1
                         end))
                     (fst (runAgentEvaluations now this candidate satelliteData)))
                []).
  { subst metrics. unfold calculateConsensusMetrics.
    pose proof (weighStep_weights this
                  (fst (runAgentEvaluations now this candidate satelliteData))
                  (0, 0, [])) as H.
    destruct (fold_left (weighStep this) _ (0, 0, []%list))
      as [[weightedSum totalWeight] weights].
    exact H. }
  rewrite Hweights. clear Hweights metrics.
  set (agentResults := fst (runAgentEvaluations now this candidate satelliteData)) in *.
  assert (Hsame : JS.keys (map (fun entry : string * AgentResult.t =>
                     (fst entry,
                      match JS.get (fst entry) (agents this) with
                      | Some agent => md_priority (BaseAgent.getMetadata agent)
                      | None => 1
                      end)) agentResults) = JS.keys agentResults).
  { unfold JS.keys. rewrite map_map. reflexivity. }
  split; [|split].
  - intros agentName agent Hin Hname.
    apply assignAll_get; [now rewrite Hsame | | assumption].
    pose proof (Hentry agentName agent Hnd Hin Hname) as Hget.
    apply get_Some_In in Hget.
    apply in_map_iff. eexists. split; [|exact Hget]. simpl.
    now rewrite (@get_In_NoDup _ (agents this) agentName agent Hnd Hin).
  - intros agentName. rewrite assignAll_keys, Hsame, Hkeys. simpl. tauto.
  - apply assignAll_NoDup. constructor.
Qed.

Lemma recorded_weights_are_priorities_witness :
  NoDup (JS.keys (agents Sample.vetoedEngine)) /\
  JS.get "QuantumInversionAgent"
    (agentWeights
       (calculateConsensusMetrics Sample.vetoedEngine
          (fst (runAgentEvaluations Sample.clock Sample.vetoedEngine
                  Sample.candidate Sample.gravityOnly))))
  = Some 3%float.
Proof.
  assert (Hnd : NoDup (JS.keys (agents Sample.vetoedEngine)))
    by (apply reachable_NoDup, reachable_sample).
  split; [exact Hnd|].
  apply (proj1 (@recorded_weights_are_priorities Sample.clock Sample.vetoedEngine
                  Sample.candidate Sample.gravityOnly Hnd)
               "QuantumInversionAgent" Sample.violatingAgent).
  - vm_compute. auto.
  - discriminate.
Defined.

(** X16: the pairwise-agreement counter equals C(t,2) + C(f,2), where t
    results have [detection = true] and f have [detection = false]; every
    result is in exactly one of the two groups. *)
Theorem pairwise_agreements_closed_form (results : list AgentResult.t) :
  let t := List.length (filter AgentResult.detection results) in
  let f := List.length (filter (fun r => negb (AgentResult.detection r)) results) in
  calculatePairwiseAgreements results = (t * (t - 1) / 2 + f * (f - 1) / 2)%nat /\
  (t + f = List.length results)%nat.
Proof.
  intros t f. subst t f. split.
  - rewrite calculatePairwiseAgreements_counts_pairs. unfold agreeingPairs.
    now rewrite !filter_map_length.
  - induction results as [|r results IH]; simpl; [reflexivity|].
    destruct (AgentResult.detection r); simpl; lia.
Qed.

(** ** Patterns that cannot be scored *)

(** X17: when the first registered pattern does not keep its expected
    detections under the nested [agentPattern] property, every evaluation
    that passes the quality gate and is not vetoed ends in the [catch]
    clause: no detection, confidence 0, an empty detector-result map, no
    quality report, and nothing recorded. *)
Theorem unreadable_first_pattern_voids_evaluation (now : string)
        (this : MultiAgentConsensus) (candidate : AnomalyCandidate)
        (satelliteData : SatelliteData)
        (patternId : string) (pattern : FPPattern)
        (others : list (string * FPPattern)) :
  falsePositiveDatabase this = (patternId, pattern) :: others ->
  (forall inner, agentPattern pattern <> PatternNested inner) ->
  pass (performDataQualityCheck satelliteData) = true ->
  (let agentResults := fst (runAgentEvaluations now this candidate satelliteData) in
   vetoed (applyVetoLogic this agentResults
             (calculateConsensusMetrics this agentResults)) = false) ->
  let out := evaluateWithConsensus now this candidate satelliteData in
  resultOf out = caughtResult now /\ engineAfter out = this.
Proof.
  intros Hdb Hshape Hpass Hveto out. subst out.
  unfold evaluateWithConsensus, resultOf, engineAfter. rewrite Hpass. simpl.
  destruct (runAgentEvaluations now this candidate satelliteData)
    as [agentResults called]. simpl in Hveto. rewrite Hveto. simpl.
  unfold checkFalsePositiveDatabase. rewrite Hdb. simpl.
  unfold calculatePatternMatch, compareAgentPatterns.
  destruct (agentPattern pattern) as [|entries|inner] eqn:Hp; simpl.
  - split; reflexivity.
  - split; reflexivity.
  - exfalso. now apply (Hshape inner).
Qed.

Lemma unreadable_first_pattern_voids_evaluation_witness :
  let out := evaluateWithConsensus Sample.clock Sample.flatPatternEngine
               Sample.candidate Sample.gravityOnly in
  falsePositiveDatabase Sample.flatPatternEngine = [("fp-1", Sample.flatPattern)] /\
  resultOf out = caughtResult Sample.clock /\
  engineAfter out = Sample.flatPatternEngine.
Proof.
  intros out. split; [reflexivity|].
  refine (@unreadable_first_pattern_voids_evaluation Sample.clock
            Sample.flatPatternEngine Sample.candidate Sample.gravityOnly
            "fp-1" Sample.flatPattern [] _ _ _ _).
  - reflexivity.
  - intros inner. discriminate.
  - reflexivity.
  - vm_compute. reflexivity.
Defined.

(** ** Helpers of [BaseAgent] *)

Ltac channel_cases satelliteData :=
  destruct satelliteData as [[[? ? ?]|] [[? ?]|] [[? ?]|] [[? ?]|] [[? ?]|] [[? ?]|]];
  unfold extractSatelliteData, has;
  cbn [optical sar thermal gravity hyperspectral elevation
       sentinel2 landsat8 landsat9 sentinel1 grace goce prisma enmap srtm
       JS.truthy option_map];
  repeat match goal with
         | |- context [JS.truthy ?v] => destruct (JS.truthy v)
         end;
  cbn [orb andb negb].

(** X19: [extractSatelliteData] never hands back the thermal channel,
    whatever the snapshot holds: its thermal test reads a property that the
    thermal object does not have. *)
Theorem extractSatelliteData_never_thermal (satelliteData : SatelliteData)
        (t : Thermal) :
  extractSatelliteData satelliteData <> Some (ThermalChannel t).
Proof. channel_cases satelliteData; discriminate. Qed.

(** X20: [extractSatelliteData] returns [null] exactly when the snapshot has
    no GRACE or GOCE product, no Sentinel-2, Landsat-8 or Landsat-9 product,
    no Sentinel-1 product, no PRISMA or EnMAP product and no SRTM product;
    thermal products make no difference.  A GRACE or GOCE product makes it
    return the gravity channel before any other. *)
Theorem extractSatelliteData_null_iff (satelliteData : SatelliteData) :
  (extractSatelliteData satelliteData = None <->
   (has (gravity satelliteData) grace || has (gravity satelliteData) goce
    || has (optical satelliteData) sentinel2 || has (optical satelliteData) landsat8
    || has (optical satelliteData) landsat9 || has (sar satelliteData) sentinel1
    || has (hyperspectral satelliteData) prisma
    || has (hyperspectral satelliteData) enmap
    || has (elevation satelliteData) srtm) = false) /\
  (has (gravity satelliteData) grace || has (gravity satelliteData) goce = true ->
   extractSatelliteData satelliteData = option_map GravityChannel (gravity satelliteData)).
Proof.
  split.
  - channel_cases satelliteData; split; intros H; try discriminate; reflexivity.
  - unfold extractSatelliteData. now intros ->.
Qed.

(** X21: [validatePhysics] reports no violation and a residual of 0 for any
    subject without a truthy [depth] (absent, 0 or NaN) that also has no
    truthy [gravityAnomaly] or comes with an empty geological context: the
    density and temperature checks run only on a truthy depth.  An array,
    which has none of the four properties, always passes. *)
Theorem validatePhysics_without_depth_passes (result : PhysicsSubject.t)
        (geologicalContext : string) :
  truthyProperty (PhysicsSubject.depth result) = false ->
  truthyProperty (PhysicsSubject.gravityAnomaly result) = false \/
  geologicalContext = "" ->
  validatePhysics result geologicalContext
  = {| passesPhysics := true; violations := []; residualScore := 0 |}.
Proof.
  intros Hdepth Hgravity. unfold validatePhysics, physicsCheck.
  rewrite Hdepth, !andb_false_r. cbn [andb].
  assert (Hskip : truthyProperty (PhysicsSubject.gravityAnomaly result)
                  && negb (String.eqb geologicalContext "") = false).
  { destruct Hgravity as [->| ->]; [reflexivity | now rewrite andb_false_r]. }
  rewrite Hskip. reflexivity.
Qed.

Lemma validatePhysics_without_depth_passes_witness :
  let anomalies := PhysicsSubject.mk None None None None in
  truthyProperty (PhysicsSubject.depth anomalies) = false /\
  validatePhysics anomalies "craton"
  = {| passesPhysics := true; violations := []; residualScore := 0 |}.
Proof.
  intros anomalies. split; [reflexivity|].
  apply validatePhysics_without_depth_passes; [reflexivity | left; reflexivity].
Defined.

(** ** The gravimetric decomposition agent *)

Lemma gravimetric_quality_valid (satelliteData : SatelliteData) :
  Gravimetric.valid (Gravimetric.validateDataQuality satelliteData)
  = (has (gravity satelliteData) grace || has (gravity satelliteData) goce).
Proof.
  unfold Gravimetric.validateDataQuality, Gravimetric.hasAdequateTemporalCoverage,
    Gravimetric.hasSignificantGaps.
  destruct (has (gravity satelliteData) grace), (has (gravity satelliteData) goce);
    vm_compute; reflexivity.
Qed.

(** X22: the gravimetric agent accepts a snapshot exactly when it holds a
    GRACE or a GOCE product.  The quality is 0.8 with GRACE, 1 with GOCE
    only, and 0.2 with neither, in which case the two issues about missing
    gravity data and temporal coverage are both reported. *)
Theorem gravimetric_quality_by_gravity_product (satelliteData : SatelliteData) :
  let report := Gravimetric.validateDataQuality satelliteData in
  Gravimetric.valid report
  = (has (gravity satelliteData) grace || has (gravity satelliteData) goce) /\
  if has (gravity satelliteData) grace
  then Gravimetric.quality report = 0.8 /\ Gravimetric.dq_issues report = []
  else if has (gravity satelliteData) goce
  then Gravimetric.quality report = 1 /\ Gravimetric.dq_issues report = []
  else Gravimetric.quality report = 0.2 /\
       Gravimetric.dq_issues report
       = ["No satellite gravity data available";
          "Insufficient temporal coverage for gravity decomposition"].
Proof.
  unfold Gravimetric.validateDataQuality, Gravimetric.hasAdequateTemporalCoverage,
    Gravimetric.hasSignificantGaps.
  destruct (has (gravity satelliteData) grace), (has (gravity satelliteData) goce);
    vm_compute; repeat split.
Qed.

Lemma quiet_gravity_result_satisfies_no_rule (key : string) (result : AgentResult.t) :
  AgentResult.agentName result = Gravimetric.agentName ->
  physicsFails result = false ->
  residualHigh result = false ->
  dataHas result short_wavelength_anomaly = false ->
  firstVeto [(key, result)] vetoConditions = notVetoed.
Proof.
  destruct result as [n det conf unc data md vp pv].
  unfold physicsFails, residualHigh, dataHas. cbn [AgentResult.agentName
    AgentResult.physicsValidation AgentResult.data].
  intros -> Hp Hr Hd.
  unfold vetoConditions, firstVeto, checkVetoCondition, runCheck.
  cbn [JS.get conditionChecks String.eqb Ascii.eqb Bool.eqb primaryCondition
       secondaryCondition JS.values map snd existsb forallb].
  unfold nameIncludes, dataHas.
  cbn [AgentResult.agentName AgentResult.physicsValidation AgentResult.data
       AgentResult.detection].
  rewrite Hp, Hr, Hd.
  replace (JS.includes (JS.toLowerCase Gravimetric.agentName) "seepage")
    with false by (vm_compute; reflexivity).
  replace (JS.includes (JS.toLowerCase Gravimetric.agentName) "temporal")
    with false by (vm_compute; reflexivity).
  rewrite !andb_false_r. reflexivity.
Qed.

Section GravimetricFacts.
Variable Math_random : nat -> float.
Variables Math_exp Math_tanh : float -> float.
Variable Math_pow : float -> float -> float.
Variables numberToString toFixed1 : float -> string.
Variable elapsed : float.
Variable now : string.

Lemma interpretAnomaly_unknown (targetResource : string)
      (signature : Gravimetric.Signature) (amplitude depth : float) :
  JS.get targetResource Gravimetric.TARGET_SIGNATURES = Some signature ->
  Gravimetric.interpretAnomaly numberToString toFixed1 amplitude signature depth
  = "Unknown gravity anomaly".
Proof.
  unfold Gravimetric.TARGET_SIGNATURES. cbn [JS.get]. intros H.
  repeat match type of H with
         | (if ?c then _ else _) = _ =>
             destruct c; [inversion H; subst; reflexivity|]
         end.
  discriminate.
Qed.

(** X23: every anomaly that [detectAnomalies] reports, for whatever field
    and target resource, is interpreted as "Unknown gravity anomaly": the
    interpretation table is keyed by resource names and is looked up with
    the wavelength of the signature. *)
Theorem detected_anomalies_are_never_interpreted
        (decomposed : Gravimetric.DecomposedGravity) (targetResource : string)
        (anomaly : Gravimetric.GravityAnomaly) :
  In anomaly (Gravimetric.detectAnomalies Math_tanh Math_pow numberToString toFixed1
                decomposed targetResource) ->
  Gravimetric.physicalInterpretation anomaly = "Unknown gravity anomaly".
Proof.
  unfold Gravimetric.detectAnomalies.
  destruct (JS.get targetResource Gravimetric.TARGET_SIGNATURES)
    as [signature|] eqn:Hsig; [|intros []].
  match goal with
  | |- In _ (match ?selected with _ => _ end) -> _ =>
      destruct selected as [component|]; [|intros []]
  end.
  destruct (Gravimetric.expectedAmplitude signature) as [minExpected maxExpected].
  intros Hin. apply in_flat_map in Hin. destruct Hin as [i [_ Hin]].
  apply in_flat_map in Hin. destruct Hin as [j [_ Hin]].
  match type of Hin with
  | In _ (if ?c then _ else _) => destruct c; [|destruct Hin]
  end.
  destruct Hin as [<-|[]]. cbn [Gravimetric.physicalInterpretation].
  now apply (interpretAnomaly_unknown targetResource).
Qed.

(** X24: on a snapshot without GRACE and GOCE products [evaluate]
    resolves with the failure result: no detection, confidence 0,
    uncertainty 1, no data and no physics validation.  Its method label is
    not "failed", and it keeps the agent's veto power. *)
Theorem gravimetric_evaluate_without_gravity (candidate : AnomalyCandidate)
        (satelliteData : SatelliteData) :
  has (gravity satelliteData) grace || has (gravity satelliteData) goce = false ->
  let result :=
    Gravimetric.evaluate Math_random Math_exp Math_tanh Math_pow
      numberToString toFixed1 elapsed now candidate satelliteData in
  AgentResult.detection result = false /\
  AgentResult.confidence result = 0 /\
  AgentResult.uncertainty result = 1 /\
  AgentResult.data result = None /\
  AgentResult.physicsValidation result = None /\
  AgentResult.vetoPower result = Some true /\
  method (AgentResult.metadata result) = "multi_orbit_gravimetric_decomposition".
Proof.
  intros Hnone result. subst result.
  unfold Gravimetric.evaluate, Gravimetric.evaluateBody.
  pose proof (gravimetric_quality_valid satelliteData) as Hvalid.
  rewrite Hnone in Hvalid. rewrite Hvalid. cbn [negb].
  repeat split.
Qed.

Lemma gravimetric_result_cases (candidate : AnomalyCandidate)
      (satelliteData : SatelliteData) :
  let result :=
    Gravimetric.evaluate Math_random Math_exp Math_tanh Math_pow
      numberToString toFixed1 elapsed now candidate satelliteData in
  result = Gravimetric.createFailureResult elapsed now "Insufficient gravity data quality"
  \/
  (AgentResult.agentName result = Gravimetric.agentName /\
   (exists decomposed,
       AgentResult.detection result
       = Nat.ltb 0 (List.length
                      (Gravimetric.detectAnomalies Math_tanh Math_pow
                         numberToString toFixed1 decomposed
                         (targetResource candidate))) /\
       AgentResult.confidence result
       = Gravimetric.calculateDetectionConfidence
           (Gravimetric.detectAnomalies Math_tanh Math_pow
              numberToString toFixed1 decomposed (targetResource candidate))
           candidate) /\
   AgentResult.data result
   = Some {| short_wavelength_anomaly := JS.undefined;
             alteration_detected := JS.undefined;
             coherence_score := None |} /\
   AgentResult.physicsValidation result
   = Some {| passesPhysics := true; violations := []; residualScore := 0 |}).
Proof.
  intros result. subst result.
  unfold Gravimetric.evaluate, Gravimetric.evaluateBody.
  destruct (negb (Gravimetric.valid (Gravimetric.validateDataQuality satelliteData)));
    [now left|].
  destruct (Gravimetric.decomposeGravityField _ candidate) as [decomposed|e];
    cbn [JS.bind]; [right | now left].
  split; [reflexivity|]. split; [exists decomposed; split; reflexivity|].
  split; reflexivity.
Qed.

(** X25: whatever the candidate and the snapshot, the result of the
    gravimetric agent satisfies none of the veto rules: its physics
    validation, when present, passes with residual 0, and its data lack the
    short-wavelength flag that the gravity rule reads.  An engine whose
    only result is this agent's never vetoes. *)
Theorem gravimetric_result_never_vetoes (this : MultiAgentConsensus)
        (candidate : AnomalyCandidate) (satelliteData : SatelliteData)
        (metrics : ConsensusMetrics) :
  let result :=
    Gravimetric.evaluate Math_random Math_exp Math_tanh Math_pow
      numberToString toFixed1 elapsed now candidate satelliteData in
  physicsFails result = false /\
  residualHigh result = false /\
  dataHas result short_wavelength_anomaly = false /\
  applyVetoLogic this [(Gravimetric.agentName, result)] metrics = notVetoed.
Proof.
  intros result.
  pose proof (gravimetric_result_cases candidate satelliteData) as Hcases.
  cbv zeta in Hcases. fold result in Hcases. clearbody result.
  assert (Hfacts : AgentResult.agentName result = Gravimetric.agentName /\
                   physicsFails result = false /\
                   residualHigh result = false /\
                   dataHas result short_wavelength_anomaly = false).
  { destruct Hcases as [-> | [Hname [_ [Hdata Hphysics]]]].
    - repeat split.
    - unfold physicsFails, residualHigh, dataHas.
      rewrite Hname, Hdata, Hphysics. repeat split. }
  destruct Hfacts as [Hname [Hp [Hr Hd]]].
  repeat split; try assumption.
  unfold applyVetoLogic. destruct (negb (vetoEnabled (config this))); [reflexivity|].
  apply quiet_gravity_result_satisfies_no_rule; assumption.
Qed.

(** X26: for a target resource without a signature (any name other than
    the six in the table) the gravimetric agent reports no detection and a
    confidence of 0, whatever the snapshot and the gravity field. *)
Theorem gravimetric_unknown_resource_is_not_detected (candidate : AnomalyCandidate)
        (satelliteData : SatelliteData) :
  JS.get (targetResource candidate) Gravimetric.TARGET_SIGNATURES = None ->
  let result :=
    Gravimetric.evaluate Math_random Math_exp Math_tanh Math_pow
      numberToString toFixed1 elapsed now candidate satelliteData in
  AgentResult.detection result = false /\ AgentResult.confidence result = 0.
Proof.
  intros Hunknown result.
  destruct (gravimetric_result_cases candidate satelliteData)
    as [Hfail | [_ [[decomposed [Hdet Hconf]] _]]];
    cbv zeta in *; fold result in Hfail || fold result in Hdet, Hconf.
  - rewrite Hfail. split; reflexivity.
  - rewrite Hdet, Hconf. unfold Gravimetric.detectAnomalies.
    rewrite Hunknown. split; reflexivity.
Qed.

End GravimetricFacts.

Lemma detected_anomalies_are_never_interpreted_witness :
  let spike :=
    {| Gravimetric.longWavelength := [];
       Gravimetric.mediumWavelength := [];
       Gravimetric.shortWavelength := [[0; 0; 0]; [0; 100; 0]; [0; 0; 0]];
       Gravimetric.original := [];
       Gravimetric.residuals := [] |} in
  let anomalies :=
    Gravimetric.detectAnomalies (fun x => x) (fun x _ => x * x)
      (fun _ => "1") (fun _ => "1.0") spike "gold" in
  exists anomaly,
    In anomaly anomalies /\
    Gravimetric.ga_amplitude anomaly = 100 /\
    Gravimetric.physicalInterpretation anomaly = "Unknown gravity anomaly".
Proof.
  intros spike anomalies.
  assert (Hfound : exists anomaly,
             In anomaly anomalies /\ Gravimetric.ga_amplitude anomaly = 100).
  { subst anomalies spike. vm_compute. eexists. split; [left; reflexivity|reflexivity]. }
  destruct Hfound as [anomaly [Hin Hamp]].
  exists anomaly. split; [exact Hin|]. split; [exact Hamp|].
  exact (@detected_anomalies_are_never_interpreted (fun x => x) (fun x _ => x * x)
           (fun _ => "1") (fun _ => "1.0") spike "gold" anomaly Hin).
Defined.

Lemma gravimetric_evaluate_without_gravity_witness :
  has (gravity Sample.cloudyOptical) grace || has (gravity Sample.cloudyOptical) goce
  = false /\
  AgentResult.detection
    (Gravimetric.evaluate (fun _ => 0.5) (fun x => x) (fun x => x) (fun x _ => x * x)
       (fun _ => "1") (fun _ => "1.0") 12 Sample.clock
       Sample.candidate Sample.cloudyOptical) = false.
Proof.
  split; [reflexivity|].
  refine (proj1 (@gravimetric_evaluate_without_gravity (fun _ => 0.5) (fun x => x)
                   (fun x => x) (fun x _ => x * x) (fun _ => "1") (fun _ => "1.0")
                   12 Sample.clock Sample.candidate Sample.cloudyOptical _)).
  reflexivity.
Defined.

Lemma gravimetric_unknown_resource_is_not_detected_witness :
  JS.get (targetResource Sample.deepCandidate) Gravimetric.TARGET_SIGNATURES
  = Some {| Gravimetric.wavelength := "short"; Gravimetric.amplitude := "positive";
            Gravimetric.depthRange := (0, 3000);
            Gravimetric.expectedAmplitude := (5, 30) |} /\
  let diamonds :=
    {| coordinates := {| latitude := 5.5; longitude := 0.25 |};
       targetResource := "diamond";
       geologicalContext := "craton";
       depth := None; radius := None;
       timeRange := ("2023-01-01", "2024-01-01") |} in
  JS.get (targetResource diamonds) Gravimetric.TARGET_SIGNATURES = None /\
  AgentResult.detection
    (Gravimetric.evaluate (fun _ => 0.5) (fun x => x) (fun x => x) (fun x _ => x * x)
       (fun _ => "1") (fun _ => "1.0") 12 Sample.clock
       diamonds Sample.gravityOnly) = false.
Proof.
  split; [reflexivity|]. intros diamonds. split; [reflexivity|].
  refine (proj1 (@gravimetric_unknown_resource_is_not_detected (fun _ => 0.5)
                   (fun x => x) (fun x => x) (fun x _ => x * x)
                   (fun _ => "1") (fun _ => "1.0") 12 Sample.clock
                   diamonds Sample.gravityOnly _)).
  reflexivity.
Defined.
